(** * Schema projection, generic service and in-memory repository

    A shallow embedding of three modules of the application:

    - [app/lib/dto.py]: projection of an ORM model onto a read or a write
      schema ([_should_exclude_field], [_construct_field_info], [factory]);
    - [app/lib/service.py]: the [Service] facade with its [authorize_*] hooks;
    - [tests/unit/utils.py]: [GenericMockRepository], the in-memory
      repository over one class-level dictionary.

    Python objects are mutable and shared, so entities live in a heap and the
    repository stores references; exceptions are an explicit result type and
    every coroutine is a state-passing computation (an [await] runs its
    operand to completion). *)

From Stdlib Require Import ZArith List String Ascii Bool Lia.
Import ListNotations.
Open Scope string_scope.

(** ** Python values *)

(** The values an attribute of an entity can hold. [VDatetime t] is a
    [datetime] with [t] the number of microseconds since the epoch. *)
Inductive value : Type :=
| VNone
| VInt (n : Z)
| VStr (s : string)
| VDatetime (t : Z)
| VUUID (u : N).

Definition value_eq_dec (a b : value) : {a = b} + {a <> b}.
Proof.
  decide equality;
    [apply Z.eq_dec | apply string_dec | apply Z.eq_dec | apply N.eq_dec].
Defined.

(** Python's [==] on these values. *)
Definition value_eqb (a b : value) : bool :=
  if value_eq_dec a b then true else false.

(** [x is None]. *)
Definition is_None (v : value) : bool :=
  match v with VNone => true | _ => false end.

(** ** Python dictionaries

    A [dict] keeps its keys in insertion order, and [list(d.values())]
    exposes that order, so a dictionary is an association list.  Assigning an
    existing key replaces the value in place; a new key goes to the end. *)
Module PyDict.
Section Dict.
Context {K V : Type} (eqb : K -> K -> bool).

Fixpoint get (k : K) (d : list (K * V)) : option V :=
  match d with
  | [] => None
  | (k', v) :: d' => if eqb k k' then Some v else get k d'
  end.

Fixpoint set (k : K) (v : V) (d : list (K * V)) : list (K * V) :=
  match d with
  | [] => [(k, v)]
  | (k', v') :: d' => if eqb k k' then (k', v) :: d' else (k', v') :: set k v d'
  end.

(** [del d[k]] for a key that is present (the callers check presence, since
    Python raises otherwise).  Keys of a [dict] are unique; every entry of
    the key is dropped so that this also holds of lists that repeat a key. *)
Definition del (k : K) (d : list (K * V)) : list (K * V) :=
  filter (fun kv => negb (eqb k (fst kv))) d.

Definition values (d : list (K * V)) : list V := map snd d.

Definition keys (d : list (K * V)) : list K := map fst d.

End Dict.
End PyDict.

(** Dictionaries with string keys: instance dictionaries, keyword
    arguments, columns and fields by name. *)
Abbreviation sget := (PyDict.get String.eqb).
Abbreviation sset := (PyDict.set String.eqb).
Abbreviation sdel := (PyDict.del String.eqb).

(** ** Exceptions and computations *)

(** The exceptions that the three modules raise.  The two repository
    exceptions come from [app/lib/repository/exceptions.py]: not found is the
    spec's [NotFound], conflict is its [IdentityConflict]. *)
Inductive exn : Type :=
| UnauthorizedException (msg : string)
| RepositoryNotFoundException
| RepositoryConflictException
| AssertionError (msg : string)
| AttributeError (attr : string)
| KeyError (key : string)
| ValueError (msg : string).

Inductive result (A : Type) : Type :=
| Ok (a : A)
| Raise (e : exn).
Arguments Ok {A} a.
Arguments Raise {A} e.

(** A coroutine over a state [S]: it returns or raises, and in both cases
    leaves the state it reached. *)
Definition M (S A : Type) : Type := S -> result A * S.

Definition ret {S A : Type} (a : A) : M S A := fun s => (Ok a, s).

Definition raise {S A : Type} (e : exn) : M S A := fun s => (Raise e, s).

Definition bind {S A B : Type} (m : M S A) (f : A -> M S B) : M S B :=
  fun s =>
    match m s with
    | (Ok a, s') => f a s'
    | (Raise e, s') => (Raise e, s')
    end.

Definition gets {S A : Type} (f : S -> A) : M S A := fun s => (Ok (f s), s).

Definition modify {S : Type} (f : S -> S) : M S unit := fun s => (Ok tt, f s).

Declare Scope py_scope.
Delimit Scope py_scope with py.
Notation "x <- m ;; k" := (bind m (fun x => k))
  (at level 61, m at next level, right associativity) : py_scope.
Notation "m ;;; k" := (bind m (fun _ => k))
  (at level 61, right associativity) : py_scope.
Open Scope py_scope.

(** Keyword arguments of a call, in call order. *)
Definition kwargs : Type := list (string * value).

(** ** [app/lib/dto.py] *)
Module Dto.

Definition DTO_INFO_KEY : string := "dto".

Inductive Mode : Type := read_only | private.

Inductive Purpose : Type := read | write.

(** The name of a Python type, as it appears inside [Mapped[...]]. *)
Definition PyType : Type := string.

(** A type hint of the model class: [Mapped[type_]] or any other
    annotation, whose origin is not [Mapped]. *)
Inductive TypeHint : Type :=
| Mapped (type_ : PyType)
| Unmapped (hint : PyType).

Section WithWorld.

(** Whatever a default callable may read and change when it runs (a random
    source, a counter, a clock). *)
Variable W : Type.

(** A Python callable without arguments: running it yields a value and moves
    the world on. *)
Definition Producer : Type := W -> value * W.

(** The execution context a column default callable receives. *)
Definition Context : Type := list (string * value).

(** [column.default] when it is not [None]: one of SQLAlchemy's default
    generators.  [is_scalar] holds of the first, [is_callable] of the second;
    an SQL expression and a sequence are neither. *)
Inductive DefaultGenerator : Type :=
| ScalarElementColumnDefault (arg : value)
| CallableColumnDefault (arg : Context -> Producer)
| ColumnElementColumnDefault (sql : string)
| Sequence (seq_name : string).

Definition is_scalar (d : DefaultGenerator) : bool :=
  match d with ScalarElementColumnDefault _ => true | _ => false end.

Definition is_callable (d : DefaultGenerator) : bool :=
  match d with CallableColumnDefault _ => true | _ => false end.

Record Column : Type := {
  info : list (string * Mode);
  default : option DefaultGenerator
}.

(** What the default of a pydantic [FieldInfo] holds: [...] (the field is
    required), nothing, or a value. *)
Inductive FieldDefault : Type :=
| Ellipsis
| Undefined
| DefaultValue (v : value).

Record FieldInfo : Type := {
  fi_default : FieldDefault;
  fi_default_factory : option Producer
}.

Definition _construct_field_info (column : Column) (purpose : Purpose)
  : result FieldInfo :=
  match purpose, default column with
  | read, _ | _, None =>
      Ok {| fi_default := Ellipsis; fi_default_factory := None |}
  | write, Some (ScalarElementColumnDefault arg) =>
      Ok {| fi_default := DefaultValue arg; fi_default_factory := None |}
  | write, Some (CallableColumnDefault arg) =>
      Ok {| fi_default := Undefined;
            fi_default_factory := Some (fun w => arg [] w) |}
  | write, Some _ => Raise (ValueError "Unexpected default type")
  end.

Definition _should_exclude_field (purpose : Purpose) (column : Column) : bool :=
  let mode := PyDict.get String.eqb DTO_INFO_KEY (info column) in
  match mode with
  | Some private => true
  | _ =>
      match purpose, mode with
      | write, Some read_only => true
      | _, _ => false
      end
  end.

(** The part of a declarative model class that [factory] inspects:
    [get_type_hints(model)] and [inspect(model).columns], both dictionaries
    in declaration order.  A model is what these two calls have returned;
    a class on which one of them raises (a hint that cannot be resolved, a
    class that is not mapped) gives no model, and that failure, which comes
    before the loop, is not described here. *)
Record Base : Type := {
  type_hints : list (string * TypeHint);
  columns : list (string * Column)
}.

(** The class that pydantic's [create_model] is asked for: its name, its
    [Config.orm_mode] and the field definitions it is given.  [create_model]
    is pydantic's, not this repository's: it is taken as recording the
    mapping that [factory] hands to it.  The checks pydantic runs on that
    mapping (a field name that shadows an attribute of [BaseModel], a type
    without validator) and the names it ignores (those starting with an
    underscore) are its own and are not described here, so [Ok schema] below
    reads: the loop of [factory] has finished, with the mapping
    [fields schema]. *)
Record BaseModel : Type := {
  model_name : string;
  orm_mode : bool;
  fields : list (string * (PyType * FieldInfo))
}.

Definition create_model (name : string) (config_orm_mode : bool)
  (dto_fields : list (string * (PyType * FieldInfo))) : BaseModel :=
  {| model_name := name; orm_mode := config_orm_mode; fields := dto_fields |}.

(** The body of the [for key, type_hint in get_type_hints(model).items()]
    loop of [factory], with [dto_fields] the dictionary built so far. *)
Fixpoint collect_dto_fields (purpose : Purpose) (cols : list (string * Column))
  (hints : list (string * TypeHint))
  (dto_fields : list (string * (PyType * FieldInfo)))
  : result (list (string * (PyType * FieldInfo))) :=
  match hints with
  | [] => Ok dto_fields
  | (key, type_hint) :: rest =>
      match PyDict.get String.eqb key cols with
      | None => Raise (KeyError key)
      | Some column =>
          if _should_exclude_field purpose column
          then collect_dto_fields purpose cols rest dto_fields
          else
            match type_hint with
            | Unmapped _ => collect_dto_fields purpose cols rest dto_fields
            | Mapped type_ =>
                match _construct_field_info column purpose with
                | Raise e => Raise e
                | Ok field_info =>
                    collect_dto_fields purpose cols rest
                      (PyDict.set String.eqb key (type_, field_info) dto_fields)
                end
            end
      end
  end.

Definition factory (name : string) (model : Base) (purpose : Purpose)
  : result BaseModel :=
  match collect_dto_fields purpose (columns model) (type_hints model) [] with
  | Raise e => Raise e
  | Ok dto_fields => Ok (create_model name true dto_fields)
  end.

(** Modelled from the spec: creating an instance of a schema is done by
    pydantic, outside this repository.  The fields are visited in order; a
    field given explicitly takes the supplied value; otherwise a default
    factory, when there is one, is invoked at that moment, a fixed default is
    copied, and a required field is a validation error (pydantic's own
    exception, rendered here as [ValueError]).  The third component is the
    record of the default factories that ran: one entry per invocation, with
    the field and the world the producer was started in. *)
Fixpoint init_fields (fs : list (string * (PyType * FieldInfo)))
  (data : kwargs) (w : W)
  : result (list (string * value)) * W * list (string * W) :=
  match fs with
  | [] => (Ok [], w, [])
  | (key, (_, field_info)) :: rest =>
      let continue_with (v : value) (w' : W) (called : list (string * W)) :=
        match init_fields rest data w' with
        | (Ok inst, w'', calls) => (Ok ((key, v) :: inst), w'', (called ++ calls)%list)
        | (Raise e, w'', calls) => (Raise e, w'', (called ++ calls)%list)
        end in
      match PyDict.get String.eqb key data with
      | Some v => continue_with v w []
      | None =>
          match fi_default_factory field_info with
          | Some producer =>
              let (v, w') := producer w in continue_with v w' [(key, w)]
          | None =>
              match fi_default field_info with
              | DefaultValue v => continue_with v w []
              | _ => (Raise (ValueError "field required"), w, [])
              end
          end
      end
  end.

Definition instantiate (schema : BaseModel) (data : kwargs) (w : W)
  : result (list (string * value)) * W * list (string * W) :=
  init_fields (fields schema) data w.

(** The worlds in which the default factory of field [key] was started,
    according to a record of invocations. *)
Definition invocations (key : string) (calls : list (string * W)) : list W :=
  map snd (filter (fun c => String.eqb key (fst c)) calls).

End WithWorld.

Arguments ScalarElementColumnDefault {W} arg.
Arguments CallableColumnDefault {W} arg.
Arguments ColumnElementColumnDefault {W} sql.
Arguments Sequence {W} seq_name.

End Dto.

(** ** The repository interface *)

(** Modelled from the spec: [app/lib/repository/abc.py] is not part of the
    sources at hand.  The interface is the table of operations of the
    repository contract, over a backing state [S], entity handles [T] and
    filter objects [F], together with the identity accessor, which reads the
    identity attribute of an entity ([VNone] when no identity is assigned).
    The sources use the accessor in two ways: the in-memory repository
    awaits its result, the service compares its result as it is.  Both are
    right of no single declaration, so the interface says which one a
    repository has: [accessor_is_coroutine] holds when the accessor is a
    coroutine function, whose call gives a coroutine object that yields the
    identity once awaited, and fails when it is a plain method, whose call
    gives the identity. *)
Module AbstractRepository.

Record t (S T F : Type) : Type := {
  accessor_is_coroutine : bool;
  get_id_attribute_value : T -> S -> value;
  add : T -> M S T;
  delete : value -> M S T;
  get : value -> M S T;
  list : Datatypes.list F -> kwargs -> M S (Datatypes.list T);
  update : T -> M S T;
  upsert : T -> M S T
}.
Arguments accessor_is_coroutine {S T F} _.
Arguments get_id_attribute_value {S T F} _ _ _.
Arguments add {S T F} _ _ _.
Arguments delete {S T F} _ _ _.
Arguments get {S T F} _ _ _.
Arguments list {S T F} _ _ _ _.
Arguments update {S T F} _ _ _.
Arguments upsert {S T F} _ _ _.

(** Modelled from the spec: the static helper [check_not_found] of the
    missing base class turns an absent item into the not-found error. *)
Definition check_not_found {S T : Type} (item_or_none : option T) : M S T :=
  match item_or_none with
  | None => raise RepositoryNotFoundException
  | Some item => ret item
  end.

End AbstractRepository.

(** ** [app/lib/service.py] *)
Module Service.
Section WithRepository.

Context {S T F : Type}.

(** [self.repository] *)
Variable repository : AbstractRepository.t S T F.

(** The result of the accessor is compared without being awaited.  When
    the accessor is a coroutine function that result is a coroutine object,
    which is different from every identifier. *)
Definition authorize_item_id (id_ : value) (data : T) : M S unit :=
  fun s =>
    if (if AbstractRepository.accessor_is_coroutine repository then true
        else negb (value_eqb
                     (AbstractRepository.get_id_attribute_value repository data s)
                     id_))
    then (Raise (UnauthorizedException "Identifier in data must match `id_`"), s)
    else (Ok tt, s).

Definition authorize_create (data : T) : M S T := ret data.

Definition create (data : T) : M S T :=
  data <- authorize_create data ;;
  AbstractRepository.add repository data.

Definition authorize_list : M S unit := ret tt.

Definition authorize_update (id_ : value) (data : T) : M S T :=
  authorize_item_id id_ data ;;;
  ret data.

Definition update (id_ : value) (data : T) : M S T :=
  data <- authorize_update id_ data ;;
  AbstractRepository.update repository data.

Definition authorize_upsert (id_ : value) (data : T) : M S T :=
  authorize_item_id id_ data ;;;
  ret data.

Definition upsert (id_ : value) (data : T) : M S T :=
  data <- authorize_upsert id_ data ;;
  AbstractRepository.upsert repository data.

Definition authorize_get (id_ : value) : M S unit := ret tt.

Definition get (id_ : value) : M S T :=
  authorize_get id_ ;;;
  AbstractRepository.get repository id_.

Definition authorize_delete (id_ : value) : M S unit := ret tt.

Definition delete (id_ : value) : M S T :=
  authorize_delete id_ ;;;
  AbstractRepository.delete repository id_.

Definition list (filters : Datatypes.list F) (kw : kwargs)
  : M S (Datatypes.list T) :=
  authorize_list ;;;
  AbstractRepository.list repository filters kw.

End WithRepository.
End Service.

(** A repository that wraps another one and records, in front of the
    backing state, the name of every operation it is asked to perform (what
    a test spy does). *)
Module Spy.
Section WithRepository.

Context {S T F : Type}.
Variable inner : AbstractRepository.t S T F.

Definition recording {A : Type} (name : string) (m : M S A)
  : M (list string * S) A :=
  fun ls =>
    let (r, s') := m (snd ls) in (r, ((fst ls ++ [name])%list, s')).

Definition repository : AbstractRepository.t (list string * S) T F :=
  {| AbstractRepository.accessor_is_coroutine :=
       AbstractRepository.accessor_is_coroutine inner;
     AbstractRepository.get_id_attribute_value :=
       fun data ls => AbstractRepository.get_id_attribute_value inner data (snd ls);
     AbstractRepository.add :=
       fun data => recording "add" (AbstractRepository.add inner data);
     AbstractRepository.delete :=
       fun id_ => recording "delete" (AbstractRepository.delete inner id_);
     AbstractRepository.get :=
       fun id_ => recording "get" (AbstractRepository.get inner id_);
     AbstractRepository.list :=
       fun filters kw =>
         recording "list" (AbstractRepository.list inner filters kw);
     AbstractRepository.update :=
       fun data => recording "update" (AbstractRepository.update inner data);
     AbstractRepository.upsert :=
       fun data => recording "upsert" (AbstractRepository.upsert inner data) |}.

End WithRepository.
End Spy.

(** ** Entities as shared mutable objects *)

(** A reference to an entity object. *)
Definition ref : Type := nat.

(** The instance dictionary ([__dict__]) of an entity: the attributes that
    currently hold a value, in the order they were first assigned. *)
Definition obj : Type := list (string * value).

(** The state the in-memory repository runs in: the objects, the
    class-level dictionary [GenericMockRepository.collection] from identity
    to stored object (every instance shares it), and how often the clock and
    the identity factories have been consulted so far. *)
Record world : Type := {
  heap : ref -> obj;
  collection : list (value * ref);
  clock_reads : nat;
  id_calls : nat
}.

Definition set_heap (h : ref -> obj) (w : world) : world :=
  {| heap := h; collection := collection w;
     clock_reads := clock_reads w; id_calls := id_calls w |}.

Definition set_collection (c : list (value * ref)) (w : world) : world :=
  {| heap := heap w; collection := c;
     clock_reads := clock_reads w; id_calls := id_calls w |}.

Definition store_obj (h : ref -> obj) (r : ref) (o : obj) : ref -> obj :=
  fun r' => if Nat.eqb r' r then o else h r'.

(** The value of attribute [name] in the instance dictionary of [item];
    [None] when the attribute holds no value. *)
Definition attr (w : world) (item : ref) (name : string) : option value :=
  PyDict.get String.eqb name (heap w item).

(** [setattr(item, name, v)] *)
Definition setattr (item : ref) (name : string) (v : value) : M world unit :=
  modify (fun w =>
    set_heap (store_obj (heap w) item
                (PyDict.set String.eqb name v (heap w item))) w).

(** [del item.name]: an attribute without a value cannot be deleted. *)
Definition delattr (item : ref) (name : string) : M world unit :=
  fun w =>
    match attr w item name with
    | None => (Raise (AttributeError name), w)
    | Some _ =>
        (Ok tt,
         set_heap (store_obj (heap w) item
                     (PyDict.del String.eqb name (heap w item))) w)
    end.

(** [for x in xs: body(x)] *)
Fixpoint for_each {S A : Type} (xs : list A) (body : A -> M S unit) : M S unit :=
  match xs with
  | [] => ret tt
  | x :: xs' => body x ;;; for_each xs' body
  end.

(** ** [tests/unit/utils.py] *)
Module GenericMockRepository.

(** An instance: the injected identity factory, given as the value its
    [n]-th invocation returns, and the name of the identity attribute (a
    class attribute of the base repository, ["id"] unless overridden). *)
Record t : Type := {
  _id_factory : nat -> value;
  id_attribute : string
}.

Section WithClock.

(** [datetime_now n] is the reading of the system clock, in microseconds,
    at the [n]-th call of [datetime.now()]. *)
Variable datetime_now : nat -> Z.

Variable self : t.

(** [datetime.now()] *)
Definition now : M world value :=
  fun w =>
    (Ok (VDatetime (datetime_now (clock_reads w))),
     {| heap := heap w; collection := collection w;
        clock_reads := Datatypes.S (clock_reads w); id_calls := id_calls w |}).

(** [self._id_factory()] *)
Definition call_id_factory : M world value :=
  fun w =>
    (Ok (_id_factory self (id_calls w)),
     {| heap := heap w; collection := collection w;
        clock_reads := clock_reads w; id_calls := Datatypes.S (id_calls w) |}).

(** Modelled from the spec: the identity accessor of the missing base
    class, [getattr(item, id_attribute)].  An entity that has not been given
    an identity reads as [None]. *)
Definition get_id_attribute_value (item : ref) (w : world) : value :=
  match attr w item (id_attribute self) with
  | Some v => v
  | None => VNone
  end.

Definition _find_or_raise_not_found (id_ : value) : M world ref :=
  found <- gets (fun w => PyDict.get value_eqb id_ (collection w)) ;;
  AbstractRepository.check_not_found found.

Definition _set_id_attribute_value (item : ref) (v : value) : M world unit :=
  setattr item (id_attribute self) v.

(** The [assert] is executed (Python run without [-O]). *)
Definition add (data : ref) : M world ref :=
  id0 <- gets (get_id_attribute_value data) ;;
  if is_None id0 then
    now_ <- now ;;
    setattr data "updated" now_ ;;;
    setattr data "created" now_ ;;;
    id_ <- call_id_factory ;;
    _set_id_attribute_value data id_ ;;;
    modify (fun w =>
      set_collection (PyDict.set value_eqb id_ data (collection w)) w) ;;;
    ret data
  else raise (AssertionError "received identified instance").

Definition delete (id_ : value) : M world ref :=
  item <- _find_or_raise_not_found id_ ;;
  modify (fun w => set_collection (PyDict.del value_eqb id_ (collection w)) w) ;;;
  ret item.

Definition get (id_ : value) : M world ref :=
  _find_or_raise_not_found id_.

Definition list {F : Type} (filters : Datatypes.list F) (kw : kwargs)
  : M world (Datatypes.list ref) :=
  gets (fun w => PyDict.values (collection w)).

(** The loop of [update] runs over [data.__dict__.items()] as it stands when
    the loop starts.  When [item] and [data] are one object the loop assigns
    to the dictionary it iterates, but only keys that are present, which
    Python allows. *)
Definition update (data : ref) : M world ref :=
  id0 <- gets (get_id_attribute_value data) ;;
  item <- _find_or_raise_not_found id0 ;;
  delattr data "created" ;;;
  now_ <- now ;;
  setattr data "updated" now_ ;;;
  items <- gets (fun w => heap w data) ;;
  for_each items (fun kv =>
    if String.prefix "_" (fst kv) then ret tt
    else setattr item (fst kv) (snd kv)) ;;;
  ret item.

Definition upsert (data : ref) : M world ref :=
  id0 <- gets (get_id_attribute_value data) ;;
  if is_None id0 then add data else update data.

(** The instance seen through the repository interface.  Its operations
    await the accessor, which is therefore a coroutine function. *)
Definition as_repository (F : Type) : AbstractRepository.t world ref F :=
  {| AbstractRepository.accessor_is_coroutine := true;
     AbstractRepository.get_id_attribute_value := get_id_attribute_value;
     AbstractRepository.add := add;
     AbstractRepository.delete := delete;
     AbstractRepository.get := get;
     AbstractRepository.list := list;
     AbstractRepository.update := update;
     AbstractRepository.upsert := upsert |}.

End WithClock.
End GenericMockRepository.

(** What a run of assignments [setattr(item, k, v)], one for each entry
    [(k, v)] of [items] whose key does not start with an underscore, makes of
    the instance dictionary [o] of [item]. *)
Definition assign_public (items : obj) (o : obj) : obj :=
  fold_left
    (fun o' kv =>
       if String.prefix "_" (fst kv) then o'
       else PyDict.set String.eqb (fst kv) (snd kv) o')
    items o.

(** Modelled from the spec: what it means for an entity to satisfy the
    keyword equality constraints of [list]: each named attribute holds the
    given value. *)
Definition satisfies_kwargs (w : world) (kw : kwargs) (item : ref) : bool :=
  forallb
    (fun kv =>
       match attr w item (fst kv) with
       | Some v => value_eqb v (snd kv)
       | None => false
       end)
    kw.

(** ** Sample models *)
Module Samples.
Import Dto.

(** A world for default callables: the number of values produced so far. *)
Definition uuid4 : Context -> Producer nat :=
  fun _ n => (VUUID (N.of_nat n), Datatypes.S n).

(** [id] is generated and read-only, [name] is an ordinary column and
    [secret] is private. *)
Definition Widget : Base nat :=
  {| type_hints :=
       [("id", Mapped "UUID"); ("name", Mapped "str"); ("secret", Mapped "str")];
     columns :=
       [("id", {| info := [(DTO_INFO_KEY, read_only)];
                  default := Some (CallableColumnDefault uuid4) |});
        ("name", {| info := []; default := None |});
        ("secret", {| info := [(DTO_INFO_KEY, private)]; default := None |})] |}.

(** A model whose [token] is filled in by a callable default when the
    caller supplies none. *)
Definition Session : Base nat :=
  {| type_hints := [("user", Mapped "str"); ("token", Mapped "UUID")];
     columns :=
       [("user", {| info := []; default := None |});
        ("token", {| info := []; default := Some (CallableColumnDefault uuid4) |})] |}.

(** A model whose only column takes its default from an SQL expression,
    which is neither a scalar nor a callable. *)
Definition Stamped : Base nat :=
  {| type_hints := [("stamp", Mapped "datetime")];
     columns :=
       [("stamp", {| info := [];
                     default := Some (ColumnElementColumnDefault "now()") |})] |}.

(** The same kind of default on a private column. *)
Definition Hidden : Base nat :=
  {| type_hints := [("serial", Mapped "int")];
     columns :=
       [("serial", {| info := [(DTO_INFO_KEY, private)];
                      default := Some (Sequence "serial_seq") |})] |}.

(** An in-memory repository whose identities are numbered UUIDs. *)
Definition repo : GenericMockRepository.t :=
  {| GenericMockRepository._id_factory := fun n => VUUID (N.of_nat n);
     GenericMockRepository.id_attribute := "id" |}.

(** A clock that advances by one microsecond between two readings, and a
    clock that is read twice within one microsecond. *)
Definition ticking_clock : nat -> Z := fun n => (100 + Z.of_nat n)%Z.

Definition coarse_clock : nat -> Z := fun _ => 100%Z.

(** Object 0 is stored under identity ["A"], stamped with the first clock
    reading.  Object 1 is a caller's entity
    with identity ["B"], object 2 a new entity without identity, object 3 a
    caller's copy of the stored entity with another name, and object 4 such
    a copy with an attribute whose name starts with an underscore. *)
Definition objects : ref -> obj :=
  fun r =>
    match r with
    | 0%nat => [("id", VStr "A"); ("created", VDatetime 100);
                ("updated", VDatetime 100); ("name", VStr "a")]
    | 1%nat => [("id", VStr "B"); ("name", VStr "d")]
    | 2%nat => [("name", VStr "a")]
    | 3%nat => [("id", VStr "A"); ("created", VDatetime 7); ("name", VStr "b")]
    | 4%nat => [("id", VStr "A"); ("created", VDatetime 7); ("_note", VStr "x")]
    | _ => []
    end.

Definition stocked : world :=
  {| heap := objects; collection := [(VStr "A", 0%nat)];
     clock_reads := 1; id_calls := 0 |}.

End Samples.

(** ** Fields of a projection, in order *)
Module DtoOrder.
Import Dto.

(** Whether the loop of [factory] turns the hinted attribute [kh] into a
    field: its hint is [Mapped], and its column is there and not excluded. *)
Definition included {W : Type} (purpose : Purpose)
  (cols : list (string * Column W)) (kh : string * TypeHint) : bool :=
  match snd kh, sget (fst kh) cols with
  | Mapped _, Some column => negb (_should_exclude_field W purpose column)
  | _, _ => false
  end.

End DtoOrder.

(** ** Models that differ in their defaults, and missing columns *)
Module DtoModels.
Import Dto.

(** The column without its default. *)
Definition forget_default {W : Type} (column : Column W) : Column W :=
  {| info := info W column; default := None |}.

(** The model with the default removed from every column that [which]
    selects; hints, column names and marks are kept. *)
Definition forget_defaults {W : Type} (which : Column W -> bool)
  (model : Base W) : Base W :=
  {| type_hints := type_hints W model;
     columns :=
       map (fun kc =>
              (fst kc, if which (snd kc) then forget_default (snd kc) else snd kc))
         (columns W model) |}.


End DtoModels.

(** ** [app/lib/logging.py] *)
Module AccessLogFilter.

(** How a call of [filter] ends: with a boolean, or in one of the two
    exceptions it can raise: too few values to unpack, or a request path that
    is not a string. *)
Inductive outcome : Type :=
| Returns (b : bool)
| RaisesValueError
| RaisesTypeError.

Definition HTTP_200_OK : value := VInt 200.

Section WithPattern.

(** [self.path_filter.match]: whether the compiled pattern matches at the
    start of the string. *)
Variable path_filter_match : string -> bool.

(** [*_, req_path, _, status_code = record.args]: the third value from the
    end and the last one; nothing when there are fewer than three. *)
Fixpoint unpack_args (args : list value) : option (value * value) :=
  match args with
  | [req_path; _; status_code] => Some (req_path, status_code)
  | _ :: rest => unpack_args rest
  | [] => None
  end.

Definition filter (record_args : list value) : outcome :=
  match unpack_args record_args with
  | None => RaisesValueError
  | Some (req_path, status_code) =>
      match req_path with
      | VStr path =>
          if path_filter_match path && value_eqb status_code HTTP_200_OK
          then Returns false
          else Returns true
      | _ => RaisesTypeError
      end
  end.

End WithPattern.
End AccessLogFilter.

(** ** [app/lib/settings.py] *)
Module AppSettings.

(** [str.isspace] on an ASCII character: tab to carriage return, the four
    separators, and the space. *)
Definition isspace (c : ascii) : bool :=
  let n := nat_of_ascii c in
  ((9 <=? n) && (n <=? 13) || (28 <=? n) && (n <=? 32))%nat.

(** [str.lower] on an ASCII character. *)
Definition lower_char (c : ascii) : ascii :=
  let n := nat_of_ascii c in
  if ((65 <=? n) && (n <=? 90))%nat then ascii_of_nat (n + 32) else c.

Fixpoint lower (s : string) : string :=
  match s with
  | EmptyString => EmptyString
  | String c s' => String (lower_char c) (lower s')
  end.

Definition is_empty (s : string) : bool :=
  match s with EmptyString => true | _ => false end.

(** [str.split()] without separator, reading [s] with [word] the characters
    of the current word read so far: words are the maximal runs without
    whitespace, and no word is empty. *)
Fixpoint split_from (word : string) (s : string) : list string :=
  match s with
  | EmptyString => if is_empty word then [] else [word]
  | String c s' =>
      if isspace c then
        if is_empty word then split_from EmptyString s'
        else word :: split_from EmptyString s'
      else split_from (word ++ String c EmptyString) s'
  end.

Definition split (s : string) : list string := split_from EmptyString s.

(** [sep.join(words)] *)
Fixpoint join (sep : string) (words : list string) : string :=
  match words with
  | [] => EmptyString
  | w :: rest =>
      match rest with
      | [] => w
      | _ :: _ => w ++ sep ++ join sep rest
      end
  end.

(** The property [slug]: ["-".join(s.lower() for s in self.NAME.split())]. *)
Definition slug (NAME : string) : string :=
  join "-" (map lower (split NAME)).

(** The strings on which [lower] and [split] above are Python's: those of
    ASCII characters only. *)
Fixpoint is_ascii (s : string) : bool :=
  match s with
  | EmptyString => true
  | String c s' => (nat_of_ascii c <? 128)%nat && is_ascii s'
  end.

Fixpoint all_chars (p : ascii -> bool) (s : string) : bool :=
  match s with
  | EmptyString => true
  | String c s' => p c && all_chars p s'
  end.

Definition not_space (c : ascii) : bool := negb (isspace c).

End AppSettings.

(** ** [app/lib/worker.py] *)
Module Queue.
Section WithObjects.

(** The objects passed around as arguments, with the two serialisers the
    class falls back on: [partial(orjson.dumps, default=str)] and
    [orjson.loads]. *)
Variable A : Type.
Variable orjson_dumps_default_str : A.
Variable orjson_loads : A.

(** [kwargs.setdefault(key, v)] *)
Definition setdefault (key : string) (v : A) (kw : list (string * A))
  : list (string * A) :=
  match sget key kw with
  | Some _ => kw
  | None => sset key v kw
  end.

(** [Queue.__init__]: the positional and keyword arguments that it hands to
    [saq.Queue.__init__]. *)
Definition __init__ (args : list A) (kw : list (string * A))
  : list A * list (string * A) :=
  let kw1 := setdefault "dump" orjson_dumps_default_str kw in
  let kw2 := setdefault "load" orjson_loads kw1 in
  (args, kw2).

End WithObjects.
End Queue.

(** ** More samples *)
Module MoreSamples.
Import Dto.

(** A model with a scalar default. *)
Definition Flagged : Base nat :=
  {| type_hints := [("label", Mapped "str"); ("active", Mapped "bool")];
     columns :=
       [("label", {| info := []; default := None |});
        ("active", {| info := [];
                      default := Some (ScalarElementColumnDefault (VInt 1)) |})] |}.


(** A repository whose identity factory always answers ["A"]. *)
Definition stubborn_repo : GenericMockRepository.t :=
  {| GenericMockRepository._id_factory := fun _ => VStr "A";
     GenericMockRepository.id_attribute := "id" |}.

(** What [re.compile("^/health$").match] accepts: the path ["/health"],
    with or without a newline at its end. *)
Definition health_path (path : string) : bool :=
  String.eqb path "/health"
  || String.eqb path ("/health" ++ String (ascii_of_nat 10) EmptyString).

(** The sample store with one more object: object 5 carries the identity
    ["A"], which is stored, and a name, and no [created]. *)
Definition stocked_with_bare_copy : world :=
  {| heap :=
       fun r =>
         match r with
         | 5%nat => [("id", VStr "A"); ("name", VStr "b")]
         | _ => Samples.objects r
         end;
     collection := [(VStr "A", 0%nat)];
     clock_reads := 1;
     id_calls := 0 |}.

(** A repository of entities that are their own identity, over the list of
    the identities it holds.  Its accessor is a plain method. *)
Definition register : AbstractRepository.t (list value) value unit :=
  {| AbstractRepository.accessor_is_coroutine := false;
     AbstractRepository.get_id_attribute_value := fun data _ => data;
     AbstractRepository.add := fun data s => (Ok data, (s ++ [data])%list);
     AbstractRepository.delete :=
       fun id_ s =>
         if existsb (value_eqb id_) s
         then (Ok id_, List.filter (fun i => negb (value_eqb id_ i)) s)
         else (Raise RepositoryNotFoundException, s);
     AbstractRepository.get :=
       fun id_ s =>
         if existsb (value_eqb id_) s then (Ok id_, s)
         else (Raise RepositoryNotFoundException, s);
     AbstractRepository.list := fun _ _ s => (Ok s, s);
     AbstractRepository.update :=
       fun data s =>
         if existsb (value_eqb data) s then (Ok data, s)
         else (Raise RepositoryNotFoundException, s);
     AbstractRepository.upsert :=
       fun data s =>
         if is_None data then (Ok data, (s ++ [data])%list)
         else if existsb (value_eqb data) s then (Ok data, s)
         else (Raise RepositoryNotFoundException, s) |}.

End MoreSamples.

(** Proves that the keys of a dictionary written out in full are distinct. *)
Ltac distinct_keys :=
  repeat (constructor; [simpl; intuition discriminate|]); constructor.

(** * Properties *)

(** ** Dictionaries *)
Module PyDictFacts.
Section Facts.
Context {K V : Type} (eqb : K -> K -> bool).
Hypothesis eqb_spec : forall a b, eqb a b = true <-> a = b.

Lemma eqb_refl (k : K) : eqb k k = true.
Proof. now apply eqb_spec. Qed.

Lemma eqb_neq (a b : K) : a <> b -> eqb a b = false.
Proof.
  intros Hne. destruct (eqb a b) eqn:E; [|reflexivity].
  apply eqb_spec in E. contradiction.
Qed.

Lemma get_set_same (k : K) (v : V) (d : list (K * V)) :
  PyDict.get eqb k (PyDict.set eqb k v d) = Some v.
Proof.
  induction d as [|[k' v'] d IH]; simpl.
  - now rewrite eqb_refl.
  - destruct (eqb k k') eqn:E; simpl; rewrite E; auto.
Qed.

Lemma get_set_other (k k' : K) (v : V) (d : list (K * V)) :
  k' <> k -> PyDict.get eqb k' (PyDict.set eqb k v d) = PyDict.get eqb k' d.
Proof.
  intros Hne. induction d as [|[k0 v0] d IH]; simpl.
  - now rewrite (eqb_neq _ _ Hne).
  - destruct (eqb k k0) eqn:E; simpl.
    + apply eqb_spec in E. subst k0. now rewrite (eqb_neq _ _ Hne).
    + destruct (eqb k' k0); auto.
Qed.

Lemma get_del_same (k : K) (d : list (K * V)) :
  PyDict.get eqb k (PyDict.del eqb k d) = None.
Proof.
  induction d as [|[k' v'] d IH]; simpl; [reflexivity|].
  destruct (eqb k k') eqn:E; simpl; [assumption|]. now rewrite E.
Qed.

Lemma get_del_other (k k' : K) (d : list (K * V)) :
  k' <> k -> PyDict.get eqb k' (PyDict.del eqb k d) = PyDict.get eqb k' d.
Proof.
  intros Hne. induction d as [|[k0 v0] d IH]; simpl; [reflexivity|].
  destruct (eqb k k0) eqn:E; simpl.
  - apply eqb_spec in E. subst k0. now rewrite (eqb_neq _ _ Hne).
  - destruct (eqb k' k0); auto.
Qed.

Lemma keys_set (k k' : K) (v : V) (d : list (K * V)) :
  In k' (PyDict.keys (PyDict.set eqb k v d)) <-> k' = k \/ In k' (PyDict.keys d).
Proof.
  induction d as [|[k0 v0] d IH]; simpl.
  - intuition.
  - destruct (eqb k k0) eqn:E; simpl.
    + apply eqb_spec in E. subst k0. intuition.
    + rewrite IH. intuition.
Qed.

Lemma keys_del (k k' : K) (d : list (K * V)) :
  In k' (PyDict.keys (PyDict.del eqb k d)) -> In k' (PyDict.keys d).
Proof.
  unfold PyDict.keys, PyDict.del. rewrite !in_map_iff.
  intros [kv [Hk Hin]]. apply filter_In in Hin. exists kv. tauto.
Qed.

Lemma NoDup_keys_set (k : K) (v : V) (d : list (K * V)) :
  NoDup (PyDict.keys d) -> NoDup (PyDict.keys (PyDict.set eqb k v d)).
Proof.
  induction d as [|[k0 v0] d IH]; simpl; intros Hnd.
  - constructor; [intros []|constructor].
  - inversion Hnd as [|? ? Hnotin Hnd']; subst.
    destruct (eqb k k0) eqn:E; simpl.
    + constructor; assumption.
    + constructor; [|auto].
      intros Hin. apply keys_set in Hin. destruct Hin as [->|Hin]; [|auto].
      now rewrite eqb_refl in E.
Qed.

Lemma NoDup_keys_del (k : K) (d : list (K * V)) :
  NoDup (PyDict.keys d) -> NoDup (PyDict.keys (PyDict.del eqb k d)).
Proof.
  induction d as [|[k0 v0] d IH]; simpl; intros Hnd; [constructor|].
  inversion Hnd as [|? ? Hnotin Hnd']; subst.
  destruct (eqb k k0); simpl; [auto|].
  constructor; [|auto]. intros Hin. apply keys_del in Hin. auto.
Qed.

Lemma get_Some_In (k : K) (v : V) (d : list (K * V)) :
  PyDict.get eqb k d = Some v -> In (k, v) d.
Proof.
  induction d as [|[k0 v0] d IH]; simpl; [discriminate|].
  destruct (eqb k k0) eqn:E.
  - apply eqb_spec in E. subst k0. intros [= ->]. now left.
  - auto.
Qed.

Lemma get_None_notin (k : K) (d : list (K * V)) :
  PyDict.get eqb k d = None <-> ~ In k (PyDict.keys d).
Proof.
  induction d as [|[k0 v0] d IH]; simpl; [tauto|].
  destruct (eqb k k0) eqn:E.
  - apply eqb_spec in E. subst k0. split; [discriminate|]. intros H. exfalso. auto.
  - rewrite IH. split.
    + intros Hn [->|Hin]; [now rewrite eqb_refl in E | auto].
    + intros Hn Hin. auto.
Qed.

Lemma In_get_NoDup (k : K) (v : V) (d : list (K * V)) :
  NoDup (PyDict.keys d) -> In (k, v) d -> PyDict.get eqb k d = Some v.
Proof.
  induction d as [|[k0 v0] d IH]; simpl; intros Hnd Hin; [contradiction|].
  inversion Hnd as [|? ? Hnotin Hnd']; subst.
  destruct Hin as [[= -> ->]|Hin].
  - now rewrite eqb_refl.
  - destruct (eqb k k0) eqn:E; [|auto].
    apply eqb_spec in E. subst k0. exfalso. apply Hnotin.
    change k with (fst (k, v)). now apply in_map.
Qed.

Lemma set_present_same (k : K) (v : V) (d : list (K * V)) :
  PyDict.get eqb k d = Some v -> PyDict.set eqb k v d = d.
Proof.
  induction d as [|[k0 v0] d IH]; simpl; [discriminate|].
  destruct (eqb k k0) eqn:E.
  - now intros [= ->].
  - intros H. now rewrite IH.
Qed.

End Facts.
End PyDictFacts.

Lemma value_eqb_spec (a b : value) : value_eqb a b = true <-> a = b.
Proof.
  unfold value_eqb. destruct (value_eq_dec a b); split; congruence.
Qed.

Lemma string_eqb_spec (a b : string) : String.eqb a b = true <-> a = b.
Proof. apply String.eqb_eq. Qed.

(** ** Schema projection *)
Module DtoFacts.
Import Dto.
Section Facts.
Variable W : Type.


Lemma construct_field_info_raises (column : Column W) (purpose : Purpose) (e : exn) :
  _construct_field_info W column purpose = Raise e ->
  e = ValueError "Unexpected default type" /\ purpose = write.
Proof.
  unfold _construct_field_info.
  destruct purpose; [discriminate|].
  destruct (default W column) as [[arg|arg|sql|sq]|]; try discriminate;
    intros [= <-]; auto.
Qed.

(** Every entry of the collected dictionary was there from the start or
    comes from a [Mapped] hint whose column is not excluded, with the field
    information built for that column. *)
Lemma collect_lookup (purpose : Purpose) (cols : list (string * Column W))
  (hints : list (string * TypeHint)) :
  forall acc fs,
    collect_dto_fields W purpose cols hints acc = Ok fs ->
    forall k type_ fi,
      sget k fs = Some (type_, fi) ->
      sget k acc = Some (type_, fi) \/
      exists column,
        In (k, Mapped type_) hints /\ sget k cols = Some column /\
        _should_exclude_field W purpose column = false /\
        _construct_field_info W column purpose = Ok fi.
Proof.
  induction hints as [|[key hint] rest IH]; simpl; intros acc fs Hc k type_ fi Hk.
  - injection Hc as <-. now left.
  - destruct (sget key cols) as [column|] eqn:Hcol; [|discriminate].
    destruct (_should_exclude_field W purpose column) eqn:Hex.
    { destruct (IH _ _ Hc _ _ _ Hk) as [?|[c [? ?]]]; [now left|right; eauto]. }
    destruct hint as [ty|ty].
    2:{ destruct (IH _ _ Hc _ _ _ Hk) as [?|[c [? ?]]]; [now left|right; eauto]. }
    destruct (_construct_field_info W column purpose) as [fi0|e] eqn:Hfi;
      [|discriminate].
    destruct (IH _ _ Hc _ _ _ Hk) as [Hacc|[c [? ?]]]; [|right; eauto].
    destruct (string_dec k key) as [->|Hne].
    + rewrite (PyDictFacts.get_set_same _ string_eqb_spec) in Hacc.
      injection Hacc as <- <-. right. exists column. auto.
    + rewrite (PyDictFacts.get_set_other _ string_eqb_spec) in Hacc by assumption.
      now left.
Qed.

(** Conversely nothing is lost: a key that was there, or that a [Mapped]
    hint with a column that is not excluded contributes, is a key of the
    collected dictionary. *)
Lemma collect_present (purpose : Purpose) (cols : list (string * Column W))
  (hints : list (string * TypeHint)) :
  forall acc fs,
    collect_dto_fields W purpose cols hints acc = Ok fs ->
    forall k,
      In k (PyDict.keys acc) \/
      (exists type_ column,
          In (k, Mapped type_) hints /\ sget k cols = Some column /\
          _should_exclude_field W purpose column = false) ->
      In k (PyDict.keys fs).
Proof.
  induction hints as [|[key hint] rest IH]; simpl; intros acc fs Hc k Hk.
  - injection Hc as <-. destruct Hk as [?|[? [? [[] _]]]]. assumption.
  - destruct (sget key cols) as [column|] eqn:Hcol; [|discriminate].
    assert (Hskip : forall acc',
               (In k (PyDict.keys acc) -> In k (PyDict.keys acc')) ->
               (k = key -> In k (PyDict.keys acc') \/
                           _should_exclude_field W purpose column = true \/
                           exists ty, hint = Unmapped ty) ->
               (_should_exclude_field W purpose column = true \/
                (exists ty, hint = Unmapped ty) -> acc' = acc) ->
               collect_dto_fields W purpose cols rest acc' = Ok fs ->
               In k (PyDict.keys fs)).
    { intros acc' Hmono Hhead Hsame Hc'. apply (IH _ _ Hc').
      destruct Hk as [Hin|[ty [c [[Heq|Hin] [Hcol' Hex]]]]].
      - left. auto.
      - injection Heq as -> ->.
        destruct (Hhead eq_refl) as [?|[Hx|[ty' Hx]]]; [now left| |discriminate].
        rewrite Hcol in Hcol'. injection Hcol' as <-. congruence.
      - right. eauto. }
    destruct (_should_exclude_field W purpose column) eqn:Hex.
    { apply (Hskip acc); auto. }
    destruct hint as [ty|ty].
    2:{ apply (Hskip acc); eauto. }
    destruct (_construct_field_info W column purpose) as [fi0|e] eqn:Hfi;
      [|discriminate].
    apply (Hskip (sset key (ty, fi0) acc)); auto.
    + intros Hin. apply (PyDictFacts.keys_set _ string_eqb_spec). now right.
    + intros ->. left. apply (PyDictFacts.keys_set _ string_eqb_spec). now left.
    + intros [?|[? ?]]; discriminate.
Qed.

Lemma collect_NoDup (purpose : Purpose) (cols : list (string * Column W))
  (hints : list (string * TypeHint)) :
  forall acc fs,
    NoDup (PyDict.keys acc) ->
    collect_dto_fields W purpose cols hints acc = Ok fs ->
    NoDup (PyDict.keys fs).
Proof.
  induction hints as [|[key hint] rest IH]; simpl; intros acc fs Hnd Hc.
  - now injection Hc as <-.
  - destruct (sget key cols) as [column|]; [|discriminate].
    destruct (_should_exclude_field W purpose column); [eauto|].
    destruct hint as [ty|ty]; [|eauto].
    destruct (_construct_field_info W column purpose) as [fi0|e]; [|discriminate].
    apply (IH _ _ (PyDictFacts.NoDup_keys_set _ string_eqb_spec key (ty, fi0) acc Hnd) Hc).
Qed.

(** A read projection reads no default, so it cannot fail on one: it
    succeeds as soon as every hinted attribute has a column. *)
Lemma collect_read_total (cols : list (string * Column W))
  (hints : list (string * TypeHint)) :
  (forall k h, In (k, h) hints -> sget k cols <> None) ->
  forall acc, exists fs, collect_dto_fields W read cols hints acc = Ok fs.
Proof.
  induction hints as [|[key hint] rest IH]; simpl; intros Hcols acc.
  - eauto.
  - destruct (sget key cols) as [column|] eqn:Hcol.
    2:{ exfalso. apply (Hcols key hint); auto. }
    assert (Hrest : forall k h, In (k, h) rest -> sget k cols <> None)
      by (intros; eapply Hcols; eauto).
    destruct (_should_exclude_field W read column); [apply IH; assumption|].
    destruct hint; simpl; apply IH; assumption.
Qed.

End Facts.
End DtoFacts.

(** ** Schema projection: visibility *)
Section DtoVisibility.
Import Dto.
Variable W : Type.


(** C2.  Whenever a projection succeeds, its schema holds exactly the fields
    that visibility permits.  For a [Mapped] attribute [key] with its column:
    marked private it is absent, for either purpose; marked read-only it is
    present in a read schema and absent from a write schema; unmarked it is
    present, for either purpose.  And every field of the schema is such an
    attribute, whose column [_should_exclude_field] lets through. *)
Theorem factory_fields_by_visibility
  (name : string) (model : Base W) (purpose : Purpose) (schema : BaseModel W)
  (key : string) (type_ : PyType) (column : Column W)
  (Hok : factory W name model purpose = Ok schema)
  (Hhint : In (key, Mapped type_) (type_hints W model))
  (Hcol : sget key (columns W model) = Some column) :
  match sget DTO_INFO_KEY (info W column), purpose with
  | Some private, _ => ~ In key (PyDict.keys (fields W schema))
  | Some read_only, read => In key (PyDict.keys (fields W schema))
  | Some read_only, write => ~ In key (PyDict.keys (fields W schema))
  | None, _ => In key (PyDict.keys (fields W schema))
  end /\
  (forall k, In k (PyDict.keys (fields W schema)) ->
     exists ty col,
       In (k, Mapped ty) (type_hints W model) /\
       sget k (columns W model) = Some col /\
       sget DTO_INFO_KEY (info W col) <> Some private /\
       (purpose = write -> sget DTO_INFO_KEY (info W col) <> Some read_only)).
Proof.
  unfold factory in Hok.
  destruct (collect_dto_fields W purpose (columns W model) (type_hints W model) [])
    as [fs|e] eqn:Hc; [|discriminate].
  injection Hok as <-. simpl.
  assert (Habsent : _should_exclude_field W purpose column = true ->
                    ~ In key (PyDict.keys fs)).
  { intros Hex Hin.
    destruct (sget key fs) as [[ty fi]|] eqn:Hget.
    - destruct (DtoFacts.collect_lookup W _ _ _ _ _ Hc _ _ _ Hget)
        as [Hacc|[c [_ [Hc' [Hex' _]]]]]; [discriminate|].
      rewrite Hcol in Hc'. injection Hc' as <-. congruence.
    - apply (PyDictFacts.get_None_notin _ string_eqb_spec) in Hget. auto. }
  assert (Hpresent : _should_exclude_field W purpose column = false ->
                     In key (PyDict.keys fs)).
  { intros Hex. apply (DtoFacts.collect_present W _ _ _ _ _ Hc). right. eauto. }
  split.
  - unfold _should_exclude_field in Habsent, Hpresent.
    destruct (sget DTO_INFO_KEY (info W column)) as [[|]|]; destruct purpose; auto.
  - intros k Hin.
    destruct (sget k fs) as [[ty fi]|] eqn:Hget.
    + destruct (DtoFacts.collect_lookup W _ _ _ _ _ Hc _ _ _ Hget)
        as [Hacc|[c [Hh [Hc' [Hex _]]]]]; [discriminate|].
      exists ty, c. repeat split; auto.
      * unfold _should_exclude_field in Hex.
        destruct (sget DTO_INFO_KEY (info W c)) as [[|]|]; congruence.
      * intros ->. unfold _should_exclude_field in Hex.
        destruct (sget DTO_INFO_KEY (info W c)) as [[|]|]; congruence.
    + apply (PyDictFacts.get_None_notin _ string_eqb_spec) in Hget. contradiction.
Qed.

End DtoVisibility.

(** C2 on the sample model: the read schema of [Widget] has [id] and the
    write schema has not. *)
Lemma factory_fields_by_visibility_witness :
  (exists schema,
      Dto.factory nat "WidgetRead" Samples.Widget Dto.read = Ok schema /\
      In "id" (PyDict.keys (Dto.fields nat schema))) /\
  (exists schema,
      Dto.factory nat "WidgetWrite" Samples.Widget Dto.write = Ok schema /\
      ~ In "id" (PyDict.keys (Dto.fields nat schema)) /\
      ~ In "secret" (PyDict.keys (Dto.fields nat schema)) /\
      In "name" (PyDict.keys (Dto.fields nat schema))).
Proof.
  split.
  - eexists. split; [reflexivity|].
    refine (proj1 (factory_fields_by_visibility nat "WidgetRead" Samples.Widget
                     Dto.read _ "id" "UUID" _ eq_refl _ eq_refl)).
    simpl. auto.
  - eexists. split; [reflexivity|]. repeat split.
    + refine (proj1 (factory_fields_by_visibility nat "WidgetWrite" Samples.Widget
                       Dto.write _ "id" "UUID" _ eq_refl _ eq_refl)).
      simpl. auto.
    + refine (proj1 (factory_fields_by_visibility nat "WidgetWrite" Samples.Widget
                       Dto.write _ "secret" "str" _ eq_refl _ eq_refl)).
      simpl. auto.
    + refine (proj1 (factory_fields_by_visibility nat "WidgetWrite" Samples.Widget
                       Dto.write _ "name" "str" _ eq_refl _ eq_refl)).
      simpl. auto.
Defined.

Section DtoDefaults.
Import Dto.
Variable W : Type.


(** With every hinted attribute backed by a column, the loop of a write
    projection fails as soon as one attribute it would include has a default
    that is neither scalar nor callable. *)
Lemma collect_write_unexpected_default (cols : list (string * Column W))
  (key : string) (type_ : PyType) (column : Column W) (d : DefaultGenerator W)
  (hints : list (string * TypeHint)) :
  (forall k h, In (k, h) hints -> sget k cols <> None) ->
  In (key, Mapped type_) hints ->
  sget key cols = Some column ->
  _should_exclude_field W write column = false ->
  default W column = Some d ->
  is_scalar W d = false ->
  is_callable W d = false ->
  forall acc,
    collect_dto_fields W write cols hints acc
    = Raise (ValueError "Unexpected default type").
Proof.
  intros Hcols Hin Hcol Hex Hd Hs Hc.
  induction hints as [|[k0 h0] rest IH]; cbn [collect_dto_fields]; intros acc;
    [contradiction|].
  assert (Hrest : forall k h, In (k, h) rest -> sget k cols <> None)
    by (intros; eapply Hcols; right; eauto).
  destruct Hin as [Heq|Hin].
  - injection Heq as -> ->. rewrite Hcol, Hex.
    unfold _construct_field_info. rewrite Hd.
    destruct d; simpl in *; congruence.
  - destruct (sget k0 cols) as [c0|] eqn:Hc0.
    2:{ exfalso. apply (Hcols k0 h0); auto. now left. }
    destruct (_should_exclude_field W write c0); [now apply IH|].
    destruct h0 as [ty|ty]; [|now apply IH].
    destruct (_construct_field_info W c0 write) as [fi0|e] eqn:Hfi;
      [now apply IH|].
    apply DtoFacts.construct_field_info_raises in Hfi. now destruct Hfi as [-> _].
Qed.

Lemma sget_forget (which : Column W -> bool) (cols : list (string * Column W))
  (key : string) :
  sget key
    (map (fun kc =>
            (fst kc,
             if which (snd kc) then DtoModels.forget_default (snd kc) else snd kc))
       cols)
  = option_map
      (fun c => if which c then DtoModels.forget_default c else c)
      (sget key cols).
Proof.
  induction cols as [|[k c] cols IH]; simpl; [reflexivity|].
  destruct (String.eqb key k); [reflexivity|exact IH].
Qed.

(** The loop does not look at the default of a column that it excludes, nor
    at any default when the projection is a read projection: removing those
    defaults changes nothing of what it returns or raises. *)
Lemma collect_forget (purpose : Purpose) (which : Column W -> bool)
  (cols : list (string * Column W)) (hints : list (string * TypeHint)) :
  (forall c, which c = true ->
             purpose = read \/ _should_exclude_field W purpose c = true) ->
  forall acc,
    collect_dto_fields W purpose
      (map (fun kc =>
              (fst kc,
               if which (snd kc) then DtoModels.forget_default (snd kc)
               else snd kc))
         cols)
      hints acc
    = collect_dto_fields W purpose cols hints acc.
Proof.
  intros Hwhich.
  induction hints as [|[key hint] rest IH]; cbn [collect_dto_fields]; intros acc;
    [reflexivity|].
  rewrite sget_forget.
  destruct (sget key cols) as [column|]; cbn [option_map]; [|reflexivity].
  assert (Hex : _should_exclude_field W purpose
                  (if which column then DtoModels.forget_default column else column)
                = _should_exclude_field W purpose column)
    by (destruct (which column); reflexivity).
  rewrite Hex.
  destruct (_should_exclude_field W purpose column) eqn:Hexcl; [apply IH|].
  destruct hint as [ty|ty]; [|apply IH].
  assert (Hfi : _construct_field_info W
                  (if which column then DtoModels.forget_default column else column)
                  purpose
                = _construct_field_info W column purpose).
  { destruct (which column) eqn:Hw; [|reflexivity].
    destruct (Hwhich column Hw) as [->|Hx]; [|congruence].
    reflexivity. }
  rewrite Hfi.
  destruct (_construct_field_info W column purpose); [apply IH|reflexivity].
Qed.

Lemma collect_read_no_value_error (cols : list (string * Column W))
  (hints : list (string * TypeHint)) :
  forall acc msg,
    collect_dto_fields W read cols hints acc <> Raise (ValueError msg).
Proof.
  induction hints as [|[key hint] rest IH]; cbn [collect_dto_fields];
    intros acc msg; [discriminate|].
  destruct (sget key cols) as [column|]; [|discriminate].
  destruct (_should_exclude_field W read column); [apply IH|].
  destruct hint as [ty|ty]; [|apply IH].
  cbn [_construct_field_info]. apply IH.
Qed.

(** C6, as the code has it.  (1) A write projection of a model whose hinted
    attributes all have a column fails with [ValueError] ("Unexpected default
    type") when an attribute it would include (a [Mapped] hint, a column
    that is neither private nor read-only) has a default that is neither
    scalar nor callable.  (2) A read projection does not look at any default:
    it returns or raises what it does for the model with every default
    removed, and it never raises that [ValueError].  (3) A write projection
    does not look at the default of a column that it excludes: it returns or
    raises what it does for the model with those defaults removed. *)
Theorem factory_write_unexpected_default (name : string) (model : Base W) :
  (forall (key : string) (type_ : PyType) (column : Column W)
          (d : DefaultGenerator W),
      (forall k h, In (k, h) (type_hints W model) ->
                   sget k (columns W model) <> None) ->
      In (key, Mapped type_) (type_hints W model) ->
      sget key (columns W model) = Some column ->
      _should_exclude_field W write column = false ->
      default W column = Some d ->
      is_scalar W d = false ->
      is_callable W d = false ->
      factory W name model write = Raise (ValueError "Unexpected default type")) /\
  (factory W name model read
   = factory W name (DtoModels.forget_defaults (fun _ => true) model) read /\
   factory W name model read <> Raise (ValueError "Unexpected default type")) /\
  factory W name model write
  = factory W name
      (DtoModels.forget_defaults (_should_exclude_field W write) model) write.
Proof.
  split; [|split; [split|]].
  - intros key type_ column d Hcols Hhint Hcol Hincl Hdefault Hscalar Hcallable.
    unfold factory.
    now rewrite (collect_write_unexpected_default _ _ _ _ _ _
                   Hcols Hhint Hcol Hincl Hdefault Hscalar Hcallable).
  - unfold factory.
    rewrite <- (collect_forget read (fun _ => true) (columns W model)
                  (type_hints W model) (fun c _ => or_introl eq_refl) []).
    reflexivity.
  - unfold factory.
    destruct (collect_dto_fields W read (columns W model) (type_hints W model) [])
      as [fs|e] eqn:Hc; [discriminate|].
    intros [= ->]. exact (collect_read_no_value_error _ _ _ _ Hc).
  - unfold factory.
    rewrite <- (collect_forget write (_should_exclude_field W write)
                  (columns W model) (type_hints W model)
                  (fun c Hc => or_intror Hc) []).
    reflexivity.
Qed.

Lemma filter_none {A : Type} (f : A -> bool) (l : list A) :
  (forall x, In x l -> f x = false) -> filter f l = [].
Proof.
  induction l as [|a l IH]; simpl; intros H; [reflexivity|].
  rewrite (H a (or_introl eq_refl)). apply IH. intros x Hx. apply H. now right.
Qed.

Lemma init_fields_calls_keys (fs : list (string * (PyType * FieldInfo W))) :
  forall data w r w' calls,
    init_fields W fs data w = (r, w', calls) ->
    forall c, In c calls -> In (fst c) (PyDict.keys fs).
Proof.
  induction fs as [|[k0 [t0 fi0]] rest IH]; simpl; intros data w r w' calls H c Hc.
  - injection H as <- <- <-. contradiction.
  - repeat match type of H with
           | context [match ?x with _ => _ end] => destruct x eqn:?
           end;
      injection H as <- <- <-; simpl in Hc;
      try contradiction;
      first [ now (right; eapply IH; eauto)
            | destruct Hc as [<-|Hc]; [now left | right; eapply IH; eauto] ].
Qed.

(** One successful instantiation that leaves [key] to its default factory
    starts the producer exactly once, and the instance holds what that run
    produced. *)
Lemma init_fields_factory (fs : list (string * (PyType * FieldInfo W))) :
  NoDup (PyDict.keys fs) ->
  forall data w inst w' calls key type_ fi producer,
    sget key fs = Some (type_, fi) ->
    fi_default_factory W fi = Some producer ->
    sget key data = None ->
    init_fields W fs data w = (Ok inst, w', calls) ->
    exists w_at,
      invocations W key calls = [w_at] /\
      sget key inst = Some (fst (producer w_at)).
Proof.
  induction fs as [|[k0 [t0 fi0]] rest IH]; simpl;
    intros Hnd data w inst w' calls key type_ fi producer Hget Hfac Hdata H;
    [discriminate|].
  inversion Hnd as [|? ? Hnotin Hnd']; subst.
  destruct (String.eqb key k0) eqn:Hk.
  - apply String.eqb_eq in Hk. subst k0. injection Hget as <- <-.
    rewrite Hdata, Hfac in H.
    destruct (producer w) as [v w1] eqn:Hp.
    destruct (init_fields W rest data w1) as [[[inst'|e] w2] calls'] eqn:Hrest;
      [|discriminate].
    injection H as <- <- <-.
    exists w. unfold invocations. simpl. rewrite String.eqb_refl. simpl.
    rewrite Hp. simpl. split; [|reflexivity].
    f_equal.
    assert (Hnone : filter (fun c => String.eqb key (fst c)) calls' = []).
    { apply filter_none. intros c Hc.
      destruct (String.eqb key (fst c)) eqn:E; [|reflexivity].
      apply String.eqb_eq in E. exfalso. apply Hnotin. rewrite E.
      eapply init_fields_calls_keys; eauto. }
    now rewrite Hnone.
  - assert (Hstep : forall v w1 called,
               invocations W key called = [] ->
               match init_fields W rest data w1 with
               | (Ok inst0, w'', calls0) =>
                   (Ok ((k0, v) :: inst0), w'', (called ++ calls0)%list)
               | (Raise e, w'', calls0) => (Raise e, w'', (called ++ calls0)%list)
               end = (Ok inst, w', calls) ->
               exists w_at,
                 invocations W key calls = [w_at] /\
                 sget key inst = Some (fst (producer w_at))).
    { intros v w1 called Hcalled Hm.
      destruct (init_fields W rest data w1) as [[[inst'|e] w2] calls'] eqn:Hrest;
        [|discriminate].
      injection Hm as <- <- <-.
      destruct (IH Hnd' _ _ _ _ _ _ _ _ _ Hget Hfac Hdata Hrest) as [w_at [Hi Hv]].
      exists w_at. split.
      - unfold invocations in *. rewrite filter_app, map_app, Hcalled. exact Hi.
      - simpl. now rewrite Hk. }
    destruct (sget k0 data) as [v|]; [apply (Hstep v w []); auto|].
    destruct (fi_default_factory W fi0) as [p0|].
    + destruct (p0 w) as [v w1]. apply (Hstep v w1 [(k0, w)]); auto.
      unfold invocations. simpl. now rewrite Hk.
    + destruct (fi_default W fi0) as [| |v]; try discriminate.
      apply (Hstep v w []); auto.
Qed.

End DtoDefaults.

(** C6 on a sample model: the write projection of [Stamped] fails. *)
Lemma factory_write_unexpected_default_witness :
  Dto.factory nat "StampedWrite" Samples.Stamped Dto.write
  = Raise (ValueError "Unexpected default type").
Proof.
  apply (proj1 (factory_write_unexpected_default nat "StampedWrite"
                  Samples.Stamped)
           "stamp" "datetime"
           {| Dto.info := [];
              Dto.default := Some (Dto.ColumnElementColumnDefault "now()") |}
           (Dto.ColumnElementColumnDefault "now()")).
  - intros k h Hin. simpl in Hin. destruct Hin as [Heq|[]].
    injection Heq as <- <-. simpl. discriminate.
  - simpl. auto.
  - reflexivity.
  - reflexivity.
  - reflexivity.
  - reflexivity.
  - reflexivity.
Defined.

(** C6 as stated does not hold.  The default of [stamp] is of no recognised
    kind, yet the read projection of [Stamped] succeeds, with [stamp] as a
    required field; and the write projection of [Hidden], whose only column
    is private and has such a default too, succeeds with no field at all. *)
Lemma factory_unrecognized_default_counterexample :
  Dto.is_scalar nat (Dto.ColumnElementColumnDefault "now()") = false /\
  Dto.is_callable nat (Dto.ColumnElementColumnDefault "now()") = false /\
  Dto.factory nat "StampedRead" Samples.Stamped Dto.read
  = Ok {| Dto.model_name := "StampedRead";
          Dto.orm_mode := true;
          Dto.fields :=
            [("stamp", ("datetime",
                        {| Dto.fi_default := Dto.Ellipsis;
                           Dto.fi_default_factory := None |}))] |} /\
  Dto.factory nat "HiddenWrite" Samples.Hidden Dto.write
  = Ok {| Dto.model_name := "HiddenWrite";
          Dto.orm_mode := true;
          Dto.fields := [] |}.
Proof. repeat split. Qed.

(** C7.  A column with a callable default that a write schema includes is
    given a field whose [default_factory] is a producer that calls the
    column's callable (with an empty context) each time it is run, and no
    fixed default.  Two instantiations in a row that leave the field to its
    default start that producer twice, once each, and each instance holds the
    value of its own run. *)
Theorem factory_default_invoked_per_instance
  (W : Type) (name : string) (model : Dto.Base W) (schema : Dto.BaseModel W)
  (key : string) (type_ : Dto.PyType) (column : Dto.Column W)
  (arg : Dto.Context -> Dto.Producer W)
  (Hok : Dto.factory W name model Dto.write = Ok schema)
  (Hhint : In (key, Dto.Mapped type_) (Dto.type_hints W model))
  (Hcol : PyDict.get String.eqb key (Dto.columns W model) = Some column)
  (Hincl : Dto._should_exclude_field W Dto.write column = false)
  (Hdefault : Dto.default W column = Some (Dto.CallableColumnDefault arg)) :
  (exists ty producer,
      PyDict.get String.eqb key (Dto.fields W schema)
      = Some (ty, {| Dto.fi_default := Dto.Undefined;
                     Dto.fi_default_factory := Some producer |}) /\
      forall w, producer w = arg [] w) /\
  (forall data1 data2 w0 inst1 w1 calls1 inst2 w2 calls2,
      PyDict.get String.eqb key data1 = None ->
      PyDict.get String.eqb key data2 = None ->
      Dto.instantiate W schema data1 w0 = (Ok inst1, w1, calls1) ->
      Dto.instantiate W schema data2 w1 = (Ok inst2, w2, calls2) ->
      exists wa wb,
        Dto.invocations W key (calls1 ++ calls2)%list = [wa; wb] /\
        PyDict.get String.eqb key inst1 = Some (fst (arg [] wa)) /\
        PyDict.get String.eqb key inst2 = Some (fst (arg [] wb))).
Proof.
  unfold Dto.factory in Hok.
  destruct (Dto.collect_dto_fields W Dto.write (Dto.columns W model)
              (Dto.type_hints W model) []) as [fs|e] eqn:Hc; [|discriminate].
  injection Hok as <-. unfold Dto.instantiate. simpl.
  assert (Hin : In key (PyDict.keys fs)).
  { apply (DtoFacts.collect_present W _ _ _ _ _ Hc). right. eauto. }
  assert (Hnd : NoDup (PyDict.keys fs)).
  { eapply (DtoFacts.collect_NoDup W); [|exact Hc]. constructor. }
  destruct (PyDict.get String.eqb key fs) as [[ty fi]|] eqn:Hget.
  2:{ apply (PyDictFacts.get_None_notin _ string_eqb_spec) in Hget. contradiction. }
  destruct (DtoFacts.collect_lookup W _ _ _ _ _ Hc _ _ _ Hget)
    as [Hacc|[c [_ [Hc' [_ Hfi]]]]]; [discriminate|].
  rewrite Hcol in Hc'. injection Hc' as <-.
  unfold Dto._construct_field_info in Hfi. rewrite Hdefault in Hfi.
  injection Hfi as <-.
  split.
  - exists ty, (fun w => arg [] w). split; reflexivity.
  - intros data1 data2 w0 inst1 w1 calls1 inst2 w2 calls2 Hd1 Hd2 H1 H2.
    destruct (init_fields_factory W fs Hnd _ _ _ _ _ _ _ _ _ Hget eq_refl Hd1 H1)
      as [wa [Ha Hva]].
    destruct (init_fields_factory W fs Hnd _ _ _ _ _ _ _ _ _ Hget eq_refl Hd2 H2)
      as [wb [Hb Hvb]].
    exists wa, wb. repeat split; try assumption.
    unfold Dto.invocations in *. now rewrite filter_app, map_app, Ha, Hb.
Qed.

(** C7 on a sample model: two [Session] instances created from the write
    schema without a [token] get two different tokens, from two runs of the
    callable. *)
Lemma factory_default_invoked_per_instance_witness :
  exists schema inst1 calls1 inst2 calls2,
    Dto.factory nat "SessionWrite" Samples.Session Dto.write = Ok schema /\
    Dto.instantiate nat schema [("user", VStr "ann")] 0%nat = (Ok inst1, 1%nat, calls1) /\
    Dto.instantiate nat schema [("user", VStr "bob")] 1%nat = (Ok inst2, 2%nat, calls2) /\
    Dto.invocations nat "token" (calls1 ++ calls2)%list = [0%nat; 1%nat] /\
    PyDict.get String.eqb "token" inst1 = Some (VUUID 0) /\
    PyDict.get String.eqb "token" inst2 = Some (VUUID 1).
Proof.
  do 5 eexists.
  split; [reflexivity|]. split; [reflexivity|]. split; [reflexivity|].
  destruct (factory_default_invoked_per_instance nat "SessionWrite"
              Samples.Session _ "token" "UUID" _ Samples.uuid4
              eq_refl (or_intror (or_introl eq_refl)) eq_refl eq_refl eq_refl)
    as [_ Htwice].
  destruct (Htwice [("user", VStr "ann")] [("user", VStr "bob")] 0%nat
              _ _ _ _ _ _ eq_refl eq_refl eq_refl eq_refl)
    as [wa [wb [Hcalls [H1 H2]]]].
  simpl in Hcalls. injection Hcalls as <- <-.
  repeat split; assumption.
Defined.

(** ** The service *)

(** C1.  When the identity carried by [data] differs from [id_],
    [Service.update] raises [UnauthorizedException] and leaves the state of
    the repository exactly as it was, whatever the repository is.  A
    repository that records the operations asked of it records none: the
    check fails before [update] of the repository is reached. *)
Theorem service_update_unauthorized
  (S T F : Type) (repository : AbstractRepository.t S T F)
  (id_ : value) (data : T) (s : S)
  (Hneq : AbstractRepository.get_id_attribute_value repository data s <> id_) :
  Service.update repository id_ data s
  = (Raise (UnauthorizedException "Identifier in data must match `id_`"), s) /\
  (forall log : list string,
      Service.update (Spy.repository repository) id_ data (log, s)
      = (Raise (UnauthorizedException "Identifier in data must match `id_`"),
         (log, s))).
Proof.
  assert (Hb : value_eqb
                 (AbstractRepository.get_id_attribute_value repository data s) id_
               = false).
  { destruct (value_eqb _ id_) eqn:E; [|reflexivity].
    apply value_eqb_spec in E. contradiction. }
  split.
  - unfold Service.update, Service.authorize_update, Service.authorize_item_id, bind.
    rewrite Hb. now destruct (AbstractRepository.accessor_is_coroutine repository).
  - intros log.
    unfold Service.update, Service.authorize_update, Service.authorize_item_id, bind.
    simpl. rewrite Hb.
    now destruct (AbstractRepository.accessor_is_coroutine repository).
Qed.

(** C1 on the sample store: updating ["A"] with an entity that says ["B"]. *)
Lemma service_update_unauthorized_witness :
  Service.update
    (GenericMockRepository.as_repository Samples.ticking_clock Samples.repo unit)
    (VStr "A") 1%nat Samples.stocked
  = (Raise (UnauthorizedException "Identifier in data must match `id_`"),
     Samples.stocked).
Proof.
  apply (service_update_unauthorized world ref unit
           (GenericMockRepository.as_repository
              Samples.ticking_clock Samples.repo unit)
           (VStr "A") 1%nat Samples.stocked).
  vm_compute. discriminate.
Defined.

(** ** The in-memory repository *)
Module MockFacts.


Lemma store_obj_same (h : ref -> obj) (r : ref) (o : obj) :
  store_obj h r o r = o.
Proof. unfold store_obj. now rewrite Nat.eqb_refl. Qed.

Lemma store_obj_other (h : ref -> obj) (r r' : ref) (o : obj) :
  r' <> r -> store_obj h r o r' = h r'.
Proof.
  intros Hne. unfold store_obj.
  destruct (Nat.eqb r' r) eqn:E; [|reflexivity].
  apply Nat.eqb_eq in E. contradiction.
Qed.

Lemma assign_public_cons (k : string) (v : value) (rest o : obj) :
  assign_public ((k, v) :: rest) o
  = assign_public rest (if String.prefix "_" k then o else sset k v o).
Proof. reflexivity. Qed.

(** The loop of [update] never raises; it rewrites the dictionary of [item]
    as [assign_public] says and touches nothing else. *)
Lemma for_each_assign (item : ref) (items : obj) :
  forall w, exists w',
    for_each items
      (fun kv =>
         if String.prefix "_" (fst kv) then ret tt
         else setattr item (fst kv) (snd kv)) w
    = (Ok tt, w') /\
    heap w' item = assign_public items (heap w item) /\
    (forall r, r <> item -> heap w' r = heap w r) /\
    collection w' = collection w /\
    clock_reads w' = clock_reads w /\
    id_calls w' = id_calls w.
Proof.
  induction items as [|[k v] rest IH]; intros w; cbn [for_each fst snd].
  - exists w. repeat split; reflexivity.
  - unfold bind at 1.
    destruct (String.prefix "_" k) eqn:Hp.
    + unfold ret at 1. rewrite assign_public_cons, Hp. apply IH.
    + unfold setattr, modify.
      destruct (IH (set_heap
                      (store_obj (heap w) item (sset k v (heap w item))) w))
        as [w' [Hrun [Hitem [Hother [Hcoll [Hclock Hids]]]]]].
      exists w'. split; [exact Hrun|].
      unfold set_heap in *.
      cbn [heap collection clock_reads id_calls] in *.
      rewrite store_obj_same in Hitem.
      repeat split; try assumption.
      * rewrite assign_public_cons, Hp. exact Hitem.
      * intros r Hr. rewrite (Hother r Hr). now apply store_obj_other.
Qed.

(** Reading an attribute after the assignments of [assign_public]: an
    attribute that [items] carries under a public name has the value from
    [items]; any other attribute keeps the value it had. *)
Lemma get_assign_public (items : obj) :
  NoDup (PyDict.keys items) ->
  forall (o : obj) (k : string),
    sget k (assign_public items o)
    = match sget k items with
      | Some v => if String.prefix "_" k then sget k o else Some v
      | None => sget k o
      end.
Proof.
  unfold assign_public.
  induction items as [|[k0 v0] rest IH]; simpl; intros Hnd o k; [reflexivity|].
  inversion Hnd as [|? ? Hnotin Hnd']; subst.
  rewrite (IH Hnd').
  destruct (String.eqb k k0) eqn:E.
  - apply String.eqb_eq in E. subst k0.
    apply (PyDictFacts.get_None_notin _ string_eqb_spec) in Hnotin.
    rewrite Hnotin.
    destruct (String.prefix "_" k); [reflexivity|].
    apply (PyDictFacts.get_set_same _ string_eqb_spec).
  - assert (Hne : k <> k0) by (intros ->; now rewrite String.eqb_refl in E).
    assert (Hsame : sget k (if String.prefix "_" k0 then o else sset k0 v0 o)
                    = sget k o).
    { destruct (String.prefix "_" k0); [reflexivity|].
      now apply (PyDictFacts.get_set_other _ string_eqb_spec). }
    rewrite Hsame. reflexivity.
Qed.

(** Assigning to a dictionary what it already holds changes nothing. *)
Lemma assign_public_fixed (items o : obj) :
  (forall k v, In (k, v) items -> sget k o = Some v) ->
  assign_public items o = o.
Proof.
  induction items as [|[k v] rest IH]; intros H; [reflexivity|].
  rewrite assign_public_cons.
  assert (Hstep : (if String.prefix "_" k then o else sset k v o) = o).
  { destruct (String.prefix "_" k); [reflexivity|].
    apply PyDictFacts.set_present_same. apply H. now left. }
  rewrite Hstep. apply IH. intros k' v' Hin. apply H. now right.
Qed.

Lemma assign_public_self (d : obj) :
  NoDup (PyDict.keys d) -> assign_public d d = d.
Proof.
  intros Hnd. apply assign_public_fixed. intros k v Hin.
  now apply (PyDictFacts.In_get_NoDup _ string_eqb_spec).
Qed.

End MockFacts.

Section MockRuns.
Variable datetime_now : nat -> Z.
Variable self : GenericMockRepository.t.


Lemma update_not_found (data : ref) (w : world) :
  PyDict.get value_eqb
    (GenericMockRepository.get_id_attribute_value self data w) (collection w) = None ->
  GenericMockRepository.update datetime_now self data w = (Raise RepositoryNotFoundException, w).
Proof.
  intros Hnone.
  unfold GenericMockRepository.update, bind at 1, gets at 1.
  unfold bind at 1, GenericMockRepository._find_or_raise_not_found, bind at 1,
    gets at 1.
  now rewrite Hnone.
Qed.

Lemma update_without_created (data item : ref) (w : world) :
  PyDict.get value_eqb
    (GenericMockRepository.get_id_attribute_value self data w) (collection w) = Some item ->
  attr w data "created" = None ->
  GenericMockRepository.update datetime_now self data w = (Raise (AttributeError "created"), w).
Proof.
  intros Hstored Hnone.
  unfold GenericMockRepository.update, bind at 1, gets at 1.
  unfold bind at 1, GenericMockRepository._find_or_raise_not_found, bind at 1,
    gets at 1.
  rewrite Hstored. cbn [AbstractRepository.check_not_found ret].
  unfold bind at 1, delattr. now rewrite Hnone.
Qed.

(** The successful run of [update]: the argument loses [created] and gets
    the clock reading as [updated]; the stored object, when it is another
    object, receives the public attributes of the argument. *)
Lemma update_runs (data item : ref) (w : world) (c : value) :
  PyDict.get value_eqb
    (GenericMockRepository.get_id_attribute_value self data w) (collection w) = Some item ->
  attr w data "created" = Some c ->
  NoDup (PyDict.keys (heap w data)) ->
  exists w',
    GenericMockRepository.update datetime_now self data w = (Ok item, w') /\
    collection w' = collection w /\
    clock_reads w' = Datatypes.S (clock_reads w) /\
    id_calls w' = id_calls w /\
    heap w' data
    = sset "updated" (VDatetime (datetime_now (clock_reads w)))
        (sdel "created" (heap w data)) /\
    (item <> data ->
     heap w' item
     = assign_public
         (sset "updated" (VDatetime (datetime_now (clock_reads w)))
            (sdel "created" (heap w data)))
         (heap w item)) /\
    (forall r, r <> item -> r <> data -> heap w' r = heap w r).
Proof.
  intros Hstored Hcreated Hnd.
  unfold GenericMockRepository.update, bind at 1, gets at 1.
  unfold bind at 1, GenericMockRepository._find_or_raise_not_found, bind at 1,
    gets at 1.
  rewrite Hstored. cbn [AbstractRepository.check_not_found ret].
  unfold bind at 1, delattr. rewrite Hcreated.
  unfold bind at 1, GenericMockRepository.now.
  unfold bind at 1, setattr at 1, modify.
  unfold bind at 1, gets at 1.
  unfold set_heap. cbn [heap collection clock_reads id_calls].
  rewrite !MockFacts.store_obj_same.
  set (d' := sset "updated" (VDatetime (datetime_now (clock_reads w)))
               (sdel "created" (heap w data))).
  unfold bind at 1.
  match goal with
  | |- context [for_each d' ?body ?w3] =>
      destruct (MockFacts.for_each_assign item d' w3)
        as [w' [Hrun [Hitem [Hother [Hcoll [Hclock Hids]]]]]]
  end.
  rewrite Hrun. unfold ret.
  cbn [heap collection clock_reads id_calls] in *.
  exists w'. split; [reflexivity|].
  repeat split; try assumption.
  - destruct (Nat.eq_dec data item) as [->|Hne].
    + rewrite Hitem, MockFacts.store_obj_same.
      apply MockFacts.assign_public_self.
      apply (PyDictFacts.NoDup_keys_set _ string_eqb_spec).
      now apply PyDictFacts.NoDup_keys_del.
    + rewrite (Hother data Hne). apply MockFacts.store_obj_same.
  - intros Hne. rewrite Hitem.
    now rewrite !MockFacts.store_obj_other by assumption.
  - intros r Hr Hr'. rewrite (Hother r Hr).
    now rewrite !MockFacts.store_obj_other by assumption.
Qed.

End MockRuns.

(** ** The in-memory repository: operations *)

(** C3, as the code has it.  [add] of an entity that already carries an
    identity fails on its assertion, with [AssertionError] ("received
    identified instance"), and leaves the store and the entity as they
    were. *)
Theorem add_identified_raises
  (datetime_now : nat -> Z) (self : GenericMockRepository.t)
  (data : ref) (w : world)
  (Hid : GenericMockRepository.get_id_attribute_value self data w <> VNone) :
  GenericMockRepository.add datetime_now self data w
  = (Raise (AssertionError "received identified instance"), w).
Proof.
  unfold GenericMockRepository.add, bind at 1, gets at 1.
  destruct (GenericMockRepository.get_id_attribute_value self data w);
    try reflexivity.
  contradiction.
Qed.

(** C3 on the sample store: adding the stored entity again. *)
Lemma add_identified_raises_witness :
  GenericMockRepository.add Samples.ticking_clock Samples.repo 0%nat Samples.stocked
  = (Raise (AssertionError "received identified instance"), Samples.stocked).
Proof.
  apply add_identified_raises. vm_compute. discriminate.
Defined.

(** C3 as stated does not hold: object 0 carries the identity ["A"], and
    [add] of it raises an assertion error, which is not the conflict error of
    the repository. *)
Lemma add_identified_counterexample :
  GenericMockRepository.get_id_attribute_value Samples.repo 0%nat Samples.stocked
  = VStr "A" /\
  fst (GenericMockRepository.add Samples.ticking_clock Samples.repo 0%nat
         Samples.stocked)
  = Raise (AssertionError "received identified instance") /\
  fst (GenericMockRepository.add Samples.ticking_clock Samples.repo 0%nat
         Samples.stocked)
  <> Raise RepositoryConflictException.
Proof.
  repeat split. vm_compute. discriminate.
Qed.



(** C9.  [upsert] of an entity without identity is [add] of it, and
    [upsert] of an entity with an identity is [update] of it: the same
    result or the same exception, and the same state afterwards. *)
Theorem upsert_dispatch
  (datetime_now : nat -> Z) (self : GenericMockRepository.t)
  (data : ref) (w : world) :
  (GenericMockRepository.get_id_attribute_value self data w = VNone ->
   GenericMockRepository.upsert datetime_now self data w
   = GenericMockRepository.add datetime_now self data w) /\
  (GenericMockRepository.get_id_attribute_value self data w <> VNone ->
   GenericMockRepository.upsert datetime_now self data w
   = GenericMockRepository.update datetime_now self data w).
Proof.
  split; intros H; unfold GenericMockRepository.upsert, bind, gets.
  - now rewrite H.
  - destruct (GenericMockRepository.get_id_attribute_value self data w);
      try reflexivity.
    contradiction.
Qed.

(** C9 on the sample store: object 2 has no identity, object 3 has one, and
    so has object 1, whose identity the store does not know. *)
Lemma upsert_dispatch_witness :
  GenericMockRepository.upsert Samples.ticking_clock Samples.repo 2%nat
    Samples.stocked
  = GenericMockRepository.add Samples.ticking_clock Samples.repo 2%nat
      Samples.stocked /\
  GenericMockRepository.upsert Samples.ticking_clock Samples.repo 3%nat
    Samples.stocked
  = GenericMockRepository.update Samples.ticking_clock Samples.repo 3%nat
      Samples.stocked /\
  GenericMockRepository.upsert Samples.ticking_clock Samples.repo 1%nat
    Samples.stocked
  = (Raise RepositoryNotFoundException, Samples.stocked).
Proof.
  split; [|split].
  - apply (proj1 (upsert_dispatch Samples.ticking_clock Samples.repo 2%nat
                    Samples.stocked)).
    reflexivity.
  - apply (proj2 (upsert_dispatch Samples.ticking_clock Samples.repo 3%nat
                    Samples.stocked)).
    vm_compute. discriminate.
  - rewrite (proj2 (upsert_dispatch Samples.ticking_clock Samples.repo 1%nat
                      Samples.stocked)).
    + reflexivity.
    + vm_compute. discriminate.
Defined.

(** C10, as the code has it.  [update] works on the caller's object
    itself.  For an entity whose identity the store knows, the argument
    carries no [created] attribute once the call is over.  When it carried one, the call succeeds
    with the stored object, and the argument has lost [created] and has the
    clock reading of the call as [updated]; when it carried none, the
    deletion fails and the call raises [AttributeError] before anything is
    changed. *)
Theorem update_mutates_argument
  (datetime_now : nat -> Z) (self : GenericMockRepository.t)
  (data item : ref) (w : world)
  (Hstored : PyDict.get value_eqb
               (GenericMockRepository.get_id_attribute_value self data w)
               (collection w) = Some item)
  (Hdict : NoDup (PyDict.keys (heap w data))) :
  attr (snd (GenericMockRepository.update datetime_now self data w)) data "created"
  = None /\
  (forall c, attr w data "created" = Some c ->
     fst (GenericMockRepository.update datetime_now self data w) = Ok item /\
     attr (snd (GenericMockRepository.update datetime_now self data w)) data
       "updated"
     = Some (VDatetime (datetime_now (clock_reads w)))) /\
  (attr w data "created" = None ->
   GenericMockRepository.update datetime_now self data w
   = (Raise (AttributeError "created"), w)).
Proof.
  assert (Hsome : forall c, attr w data "created" = Some c ->
            fst (GenericMockRepository.update datetime_now self data w) = Ok item /\
            attr (snd (GenericMockRepository.update datetime_now self data w))
              data "created" = None /\
            attr (snd (GenericMockRepository.update datetime_now self data w))
              data "updated"
            = Some (VDatetime (datetime_now (clock_reads w)))).
  { intros c Hc.
    destruct (update_runs datetime_now self data item w c Hstored Hc Hdict)
      as [w' [Hrun [_ [_ [_ [Hdata _]]]]]].
    rewrite Hrun. cbn [fst snd]. unfold attr. rewrite Hdata.
    repeat split.
    - rewrite (PyDictFacts.get_set_other _ string_eqb_spec) by discriminate.
      apply PyDictFacts.get_del_same.
    - apply (PyDictFacts.get_set_same _ string_eqb_spec). }
  split; [|split].
  - destruct (attr w data "created") as [c|] eqn:Hc.
    + now destruct (Hsome c eq_refl) as [_ [H _]].
    + now rewrite (update_without_created datetime_now self data item w Hstored Hc).
  - intros c Hc. destruct (Hsome c Hc) as [H1 [_ H3]]. now split.
  - intros Hc. now apply (update_without_created datetime_now self data item).
Qed.

(** C10 on the sample store: the caller's copy, object 3, after [update]. *)
Lemma update_mutates_argument_witness :
  attr Samples.stocked 3%nat "created" = Some (VDatetime 7) /\
  attr (snd (GenericMockRepository.update Samples.ticking_clock Samples.repo
               3%nat Samples.stocked)) 3%nat "created" = None /\
  attr (snd (GenericMockRepository.update Samples.ticking_clock Samples.repo
               3%nat Samples.stocked)) 3%nat "updated" = Some (VDatetime 101).
Proof.
  assert (Hstored : PyDict.get value_eqb
                      (GenericMockRepository.get_id_attribute_value
                         Samples.repo 3%nat Samples.stocked)
                      (collection Samples.stocked) = Some 0%nat)
    by reflexivity.
  assert (Hdict : NoDup (PyDict.keys (heap Samples.stocked 3%nat)))
    by (simpl; distinct_keys).
  destruct (update_mutates_argument Samples.ticking_clock Samples.repo
              3%nat 0%nat Samples.stocked Hstored Hdict)
    as [Hgone [Hsome _]].
  split; [reflexivity|]. split; [exact Hgone|].
  exact (proj2 (Hsome (VDatetime 7) eq_refl)).
Defined.

(** C10 as stated does not hold of every identified entity whose identity
    is stored.  Object 5 carries the stored identity ["A"] and no [created]:
    [update] of it raises [AttributeError] at the deletion, the state is as
    before, and its [updated] has not been set. *)
Lemma update_mutates_argument_counterexample :
  GenericMockRepository.get_id_attribute_value Samples.repo 5%nat
    MoreSamples.stocked_with_bare_copy = VStr "A" /\
  PyDict.get value_eqb (VStr "A") (collection MoreSamples.stocked_with_bare_copy)
  = Some 0%nat /\
  GenericMockRepository.update Samples.ticking_clock Samples.repo 5%nat
    MoreSamples.stocked_with_bare_copy
  = (Raise (AttributeError "created"), MoreSamples.stocked_with_bare_copy) /\
  attr (snd (GenericMockRepository.update Samples.ticking_clock Samples.repo
               5%nat MoreSamples.stocked_with_bare_copy)) 5%nat "updated"
  = None.
Proof. repeat split. Qed.

(** C4, as the code has it.  Let the store hold [item] under the identity
    that [data] carries, with [data] another object than [item].  After a
    successful [update data], which returns [item]: [created] of [item] is
    as before; every attribute that [data] carried, other than [created] and
    with a name that does not start with an underscore, has on [item] the
    value it had on [data]; [updated] of [item] is the clock reading taken
    during the call, hence later than its previous value whenever that
    reading is; and the attributes of [item] that [data] did not carry, or
    whose names start with an underscore, are as before. *)
Theorem update_merges_onto_stored
  (datetime_now : nat -> Z) (self : GenericMockRepository.t)
  (data item r : ref) (w w' : world)
  (Hstored : PyDict.get value_eqb
               (GenericMockRepository.get_id_attribute_value self data w)
               (collection w) = Some item)
  (Hdistinct : item <> data)
  (Hdict : NoDup (PyDict.keys (heap w data)))
  (Hok : GenericMockRepository.update datetime_now self data w = (Ok r, w')) :
  r = item /\
  attr w' item "created" = attr w item "created" /\
  (forall k v,
      k <> "created" -> k <> "updated" -> String.prefix "_" k = false ->
      attr w data k = Some v -> attr w' item k = Some v) /\
  attr w' item "updated" = Some (VDatetime (datetime_now (clock_reads w))) /\
  (forall t0,
      attr w item "updated" = Some (VDatetime t0) ->
      (t0 < datetime_now (clock_reads w))%Z ->
      exists t1, attr w' item "updated" = Some (VDatetime t1) /\ (t0 < t1)%Z) /\
  (forall k,
      k <> "updated" ->
      attr w data k = None \/ String.prefix "_" k = true ->
      attr w' item k = attr w item k) /\
  collection w' = collection w.
Proof.
  destruct (attr w data "created") as [c|] eqn:Hc.
  2:{ rewrite (update_without_created datetime_now self data item w Hstored Hc)
        in Hok. discriminate. }
  destruct (update_runs datetime_now self data item w c Hstored Hc Hdict)
    as [w1 [Hrun [Hcoll [_ [_ [_ [Hitem _]]]]]]].
  rewrite Hrun in Hok. injection Hok as <- <-.
  specialize (Hitem Hdistinct).
  assert (Hnd : NoDup (PyDict.keys
                         (PyDict.set String.eqb "updated"
                            (VDatetime (datetime_now (clock_reads w)))
                            (PyDict.del String.eqb "created" (heap w data))))).
  { apply (PyDictFacts.NoDup_keys_set _ string_eqb_spec).
    now apply PyDictFacts.NoDup_keys_del. }
  assert (Hupd : attr w1 item "updated"
                 = Some (VDatetime (datetime_now (clock_reads w)))).
  { unfold attr. rewrite Hitem, (MockFacts.get_assign_public _ Hnd).
    now rewrite (PyDictFacts.get_set_same _ string_eqb_spec). }
  split; [reflexivity|]. split; [|split; [|split; [|split; [|split]]]].
  - unfold attr. rewrite Hitem, (MockFacts.get_assign_public _ Hnd).
    rewrite (PyDictFacts.get_set_other _ string_eqb_spec) by discriminate.
    now rewrite PyDictFacts.get_del_same.
  - intros k v Hk1 Hk2 Hpub Hv. unfold attr in *.
    rewrite Hitem, (MockFacts.get_assign_public _ Hnd).
    rewrite (PyDictFacts.get_set_other _ string_eqb_spec) by assumption.
    rewrite (PyDictFacts.get_del_other _ string_eqb_spec) by assumption.
    now rewrite Hv, Hpub.
  - exact Hupd.
  - intros t0 _ Hlt. eauto.
  - intros k Hk Hnot. unfold attr in *.
    rewrite Hitem, (MockFacts.get_assign_public _ Hnd).
    rewrite (PyDictFacts.get_set_other _ string_eqb_spec) by assumption.
    destruct (string_dec k "created") as [->|Hkc].
    + now rewrite PyDictFacts.get_del_same.
    + rewrite (PyDictFacts.get_del_other _ string_eqb_spec) by assumption.
      destruct Hnot as [Hnone|Hpriv].
      * now rewrite Hnone.
      * rewrite Hpriv. now destruct (PyDict.get String.eqb k (heap w data)).
  - exact Hcoll.
Qed.

(** C4 on the sample store, with the clock that advances: updating with
    the caller's copy, object 3, renames the stored object 0, keeps its
    [created] and moves its [updated]. *)
Lemma update_merges_onto_stored_witness :
  fst (GenericMockRepository.update Samples.ticking_clock Samples.repo 3%nat
         Samples.stocked) = Ok 0%nat /\
  attr (snd (GenericMockRepository.update Samples.ticking_clock Samples.repo
               3%nat Samples.stocked)) 0%nat "created"
  = Some (VDatetime 100) /\
  attr (snd (GenericMockRepository.update Samples.ticking_clock Samples.repo
               3%nat Samples.stocked)) 0%nat "name"
  = Some (VStr "b") /\
  attr Samples.stocked 0%nat "updated" = Some (VDatetime 100) /\
  attr (snd (GenericMockRepository.update Samples.ticking_clock Samples.repo
               3%nat Samples.stocked)) 0%nat "updated"
  = Some (VDatetime 101).
Proof.
  assert (Hstored : PyDict.get value_eqb
                      (GenericMockRepository.get_id_attribute_value
                         Samples.repo 3%nat Samples.stocked)
                      (collection Samples.stocked) = Some 0%nat)
    by reflexivity.
  assert (Hdistinct : 0%nat <> 3%nat) by discriminate.
  assert (Hdict : NoDup (PyDict.keys (heap Samples.stocked 3%nat)))
    by (simpl; distinct_keys).
  destruct (update_merges_onto_stored Samples.ticking_clock Samples.repo
              3%nat 0%nat 0%nat Samples.stocked
              (snd (GenericMockRepository.update Samples.ticking_clock
                      Samples.repo 3%nat Samples.stocked))
              Hstored Hdistinct Hdict eq_refl)
    as [_ [Hcreated [Hmerge [Hupdated _]]]].
  split; [reflexivity|]. split; [|split; [|split]].
  - rewrite Hcreated. reflexivity.
  - apply Hmerge; try discriminate; reflexivity.
  - reflexivity.
  - exact Hupdated.
Defined.

(** C4 as stated does not hold, in three ways.  (1) With a clock that is
    read twice within one microsecond, the stored [updated] is 100 before
    the update with object 3 and 100 after it: not strictly greater.
    (2) Object 4 carries [_note], and the update with object 4 does not put
    it on the stored object.  (3) When the stored object itself is passed,
    as [add] and [get] hand it out, the update succeeds and the stored
    object has lost [created]. *)
Lemma update_merges_onto_stored_counterexample :
  (attr Samples.stocked 0%nat "updated" = Some (VDatetime 100) /\
   fst (GenericMockRepository.update Samples.coarse_clock Samples.repo 3%nat
          Samples.stocked) = Ok 0%nat /\
   attr (snd (GenericMockRepository.update Samples.coarse_clock Samples.repo
                3%nat Samples.stocked)) 0%nat "updated"
   = Some (VDatetime 100)) /\
  (attr Samples.stocked 4%nat "_note" = Some (VStr "x") /\
   fst (GenericMockRepository.update Samples.ticking_clock Samples.repo 4%nat
          Samples.stocked) = Ok 0%nat /\
   attr (snd (GenericMockRepository.update Samples.ticking_clock Samples.repo
                4%nat Samples.stocked)) 0%nat "_note"
   = None) /\
  (attr Samples.stocked 0%nat "created" = Some (VDatetime 100) /\
   fst (GenericMockRepository.update Samples.ticking_clock Samples.repo 0%nat
          Samples.stocked) = Ok 0%nat /\
   attr (snd (GenericMockRepository.update Samples.ticking_clock Samples.repo
                0%nat Samples.stocked)) 0%nat "created"
   = None).
Proof. repeat split. Qed.

(** [list] returns every stored object, whatever it is asked for. *)
Lemma list_returns_all (F : Type) (filters : list F) (kw : kwargs) (w : world) :
  GenericMockRepository.list filters kw w = (Ok (PyDict.values (collection w)), w).
Proof. reflexivity. Qed.

(** C5 fails on the code.  The sample store holds one entity, named ["a"];
    asked for the entities named ["zzz"], [list] returns that entity, which
    does not satisfy the constraint, where the contract wants the empty
    sequence. *)
Theorem list_ignores_constraints :
  GenericMockRepository.list (F := unit) [] [("name", VStr "zzz")] Samples.stocked
  = (Ok [0%nat], Samples.stocked) /\
  satisfies_kwargs Samples.stocked [("name", VStr "zzz")] 0%nat = false /\
  filter (satisfies_kwargs Samples.stocked [("name", VStr "zzz")])
    (PyDict.values (collection Samples.stocked)) = [].
Proof. repeat split. Qed.

(** * Further properties *)

(** ** Schema projection: field specifications, order and errors *)
Section DtoFurther.
Import Dto.
Variable W : Type.

(** X1.  In a read schema every field is required: it has no default value
    and no default factory, whatever default its column declares. *)
Theorem read_schema_fields_required
  (name : string) (model : Base W) (schema : BaseModel W)
  (key : string) (ty : PyType) (fi : FieldInfo W)
  (Hok : factory W name model read = Ok schema)
  (Hget : sget key (fields W schema) = Some (ty, fi)) :
  fi = {| fi_default := Ellipsis; fi_default_factory := None |}.
Proof.
  unfold factory in Hok.
  destruct (collect_dto_fields W read (columns W model) (type_hints W model) [])
    as [fs|e] eqn:Hc; [|discriminate].
  injection Hok as <-. simpl in Hget.
  destruct (DtoFacts.collect_lookup W _ _ _ _ _ Hc _ _ _ Hget)
    as [Hacc|[c [_ [_ [_ Hfi]]]]]; [discriminate|].
  unfold _construct_field_info in Hfi. now injection Hfi as <-.
Qed.

(** X2.  In a write schema the field of a column without default is
    required, and the field of a column with a scalar default carries that
    value as its default and no factory; a callable default gives a factory
    and no fixed value.  No field of a write schema comes from a column with
    another kind of default. *)
Theorem write_schema_field_by_default
  (name : string) (model : Base W) (schema : BaseModel W)
  (key : string) (ty : PyType) (fi : FieldInfo W) (column : Column W)
  (Hok : factory W name model write = Ok schema)
  (Hget : sget key (fields W schema) = Some (ty, fi))
  (Hcol : sget key (columns W model) = Some column) :
  match default W column with
  | None => fi = {| fi_default := Ellipsis; fi_default_factory := None |}
  | Some (ScalarElementColumnDefault arg) =>
      fi = {| fi_default := DefaultValue arg; fi_default_factory := None |}
  | Some (CallableColumnDefault arg) =>
      fi_default W fi = Undefined /\ fi_default_factory W fi <> None
  | Some _ => False
  end.
Proof.
  unfold factory in Hok.
  destruct (collect_dto_fields W write (columns W model) (type_hints W model) [])
    as [fs|e] eqn:Hc; [|discriminate].
  injection Hok as <-. simpl in Hget.
  destruct (DtoFacts.collect_lookup W _ _ _ _ _ Hc _ _ _ Hget)
    as [Hacc|[c [_ [Hc' [_ Hfi]]]]]; [discriminate|].
  rewrite Hcol in Hc'. injection Hc' as <-.
  unfold _construct_field_info in Hfi.
  destruct (default W column) as [[arg|arg|sql|sq]|]; try discriminate;
    injection Hfi as <-; simpl; auto.
  split; [reflexivity|discriminate].
Qed.

Lemma exclude_read_of_write (column : Column W) :
  _should_exclude_field W write column = false ->
  _should_exclude_field W read column = false.
Proof.
  unfold _should_exclude_field.
  destruct (sget DTO_INFO_KEY (info W column)) as [[|]|]; auto.
Qed.

(** X3.  Every field of the write schema of a model is a field of its read
    schema. *)
Theorem write_fields_subset_read
  (name_w name_r : string) (model : Base W) (schema_w schema_r : BaseModel W)
  (Hw : factory W name_w model write = Ok schema_w)
  (Hr : factory W name_r model read = Ok schema_r) :
  forall k, In k (PyDict.keys (fields W schema_w)) ->
            In k (PyDict.keys (fields W schema_r)).
Proof.
  unfold factory in Hw, Hr.
  destruct (collect_dto_fields W write (columns W model) (type_hints W model) [])
    as [fw|e] eqn:Hcw; [|discriminate].
  destruct (collect_dto_fields W read (columns W model) (type_hints W model) [])
    as [fr|e] eqn:Hcr; [|discriminate].
  injection Hw as <-. injection Hr as <-. simpl. intros k Hin.
  destruct (sget k fw) as [[ty fi]|] eqn:Hget.
  2:{ apply (PyDictFacts.get_None_notin _ string_eqb_spec) in Hget. contradiction. }
  destruct (DtoFacts.collect_lookup W _ _ _ _ _ Hcw _ _ _ Hget)
    as [Hacc|[c [Hh [Hc' [Hex _]]]]]; [discriminate|].
  apply (DtoFacts.collect_present W _ _ _ _ _ Hcr). right.
  exists ty, c. auto using exclude_read_of_write.
Qed.

Lemma collect_value_error_cause (purpose : Purpose)
  (cols : list (string * Column W)) (hints : list (string * TypeHint)) :
  forall acc msg,
    collect_dto_fields W purpose cols hints acc = Raise (ValueError msg) ->
    purpose = write /\ msg = "Unexpected default type" /\
    exists key type_ column d,
      In (key, Mapped type_) hints /\
      sget key cols = Some column /\
      _should_exclude_field W write column = false /\
      default W column = Some d /\
      is_scalar W d = false /\ is_callable W d = false.
Proof.
  induction hints as [|[key hint] rest IH]; cbn [collect_dto_fields];
    intros acc msg Hc; [discriminate|].
  assert (Hrest : forall acc',
             collect_dto_fields W purpose cols rest acc' = Raise (ValueError msg) ->
             purpose = write /\ msg = "Unexpected default type" /\
             exists key0 type_ column d,
               In (key0, Mapped type_) ((key, hint) :: rest) /\
               sget key0 cols = Some column /\
               _should_exclude_field W write column = false /\
               default W column = Some d /\
               is_scalar W d = false /\ is_callable W d = false).
  { intros acc' H.
    destruct (IH _ _ H) as [Hp [Hm [k [ty [c [d [Hin Hrest]]]]]]].
    split; [exact Hp|]. split; [exact Hm|].
    exists k, ty, c, d. split; [now right|exact Hrest]. }
  destruct (sget key cols) as [column|] eqn:Hcol; [|discriminate].
  destruct (_should_exclude_field W purpose column) eqn:Hex; [eauto|].
  destruct hint as [ty|ty]; [|eauto].
  destruct (_construct_field_info W column purpose) as [fi0|e0] eqn:Hfi; [eauto|].
  injection Hc as ->.
  unfold _construct_field_info in Hfi.
  destruct purpose; [discriminate|].
  destruct (default W column) as [d|] eqn:Hd; [|discriminate].
  destruct d as [arg|arg|sql|sq]; try discriminate; injection Hfi as <-;
    (split; [reflexivity|]; split; [reflexivity|]);
    [ exists key, ty, column, (ColumnElementColumnDefault sql)
    | exists key, ty, column, (Sequence sq) ];
    repeat split; auto; now left.
Qed.

(** X4.  [ValueError] from a projection has one cause.  When [factory]
    raises it, the projection is a write projection, the message is
    "Unexpected default type", and the model has an attribute that the write
    schema would include (a [Mapped] hint, a column that is neither private
    nor read-only) whose default is neither scalar nor callable. *)
Theorem factory_value_error_cause
  (name : string) (model : Base W) (purpose : Purpose) (msg : string)
  (Hraise : factory W name model purpose = Raise (ValueError msg)) :
  purpose = write /\ msg = "Unexpected default type" /\
  exists key type_ column d,
    In (key, Mapped type_) (type_hints W model) /\
    sget key (columns W model) = Some column /\
    _should_exclude_field W write column = false /\
    default W column = Some d /\
    is_scalar W d = false /\ is_callable W d = false.
Proof.
  unfold factory in Hraise.
  destruct (collect_dto_fields W purpose (columns W model) (type_hints W model) [])
    as [fs|e0] eqn:Hc; [discriminate|].
  injection Hraise as ->. exact (collect_value_error_cause _ _ _ _ _ Hc).
Qed.




End DtoFurther.

Section DtoDeclarationOrder.
Import Dto.
Variable W : Type.

Lemma set_absent_appends {V : Type} (k : string) (v : V) (d : list (string * V)) :
  ~ In k (PyDict.keys d) -> sset k v d = (d ++ [(k, v)])%list.
Proof.
  induction d as [|[k0 v0] d IH]; simpl; intros Hnotin; [reflexivity|].
  destruct (String.eqb k k0) eqn:E.
  - apply String.eqb_eq in E. subst k0. exfalso. auto.
  - rewrite IH; auto.
Qed.

Lemma collect_order (purpose : Purpose) (cols : list (string * Column W))
  (hints : list (string * TypeHint)) :
  NoDup (PyDict.keys hints) ->
  forall acc fs,
    (forall k, In k (PyDict.keys hints) -> ~ In k (PyDict.keys acc)) ->
    collect_dto_fields W purpose cols hints acc = Ok fs ->
    PyDict.keys fs
    = (PyDict.keys acc
       ++ PyDict.keys (List.filter (DtoOrder.included purpose cols) hints))%list.
Proof.
  induction hints as [|[key hint] rest IH]; simpl; intros Hnd acc fs Hfresh Hc.
  - injection Hc as <-. now rewrite app_nil_r.
  - inversion Hnd as [|? ? Hnotin Hnd']; subst.
    assert (Hfresh' : forall k, In k (PyDict.keys rest) -> ~ In k (PyDict.keys acc))
      by (intros k Hk; apply Hfresh; now right).
    unfold DtoOrder.included at 1. cbn [fst snd].
    destruct (sget key cols) as [column|] eqn:Hcol; [|discriminate].
    destruct (_should_exclude_field W purpose column) eqn:Hex.
    { destruct hint; simpl; now apply IH. }
    destruct hint as [ty|ty]; simpl; [|now apply IH].
    destruct (_construct_field_info W column purpose) as [fi0|e0]; [|discriminate].
    assert (Hfresh'' : forall k, In k (PyDict.keys rest) ->
                                 ~ In k (PyDict.keys (sset key (ty, fi0) acc))).
    { intros k Hk Hin.
      apply (PyDictFacts.keys_set _ string_eqb_spec) in Hin.
      destruct Hin as [->|Hin]; [contradiction|].
      now apply (Hfresh' k). }
    rewrite (IH Hnd' _ _ Hfresh'' Hc).
    rewrite set_absent_appends by (apply Hfresh; now left).
    unfold PyDict.keys. rewrite map_app, <- app_assoc. reflexivity.
Qed.

(** X6.  The fields of a schema are the hinted attributes that the
    projection includes, in the order in which the model declares them. *)
Theorem factory_fields_in_declaration_order
  (name : string) (model : Base W) (purpose : Purpose) (schema : BaseModel W)
  (Hhints : NoDup (PyDict.keys (type_hints W model)))
  (Hok : factory W name model purpose = Ok schema) :
  PyDict.keys (fields W schema)
  = PyDict.keys
      (List.filter (DtoOrder.included purpose (columns W model))
         (type_hints W model)).
Proof.
  unfold factory in Hok.
  destruct (collect_dto_fields W purpose (columns W model) (type_hints W model) [])
    as [fs|e] eqn:Hc; [|discriminate].
  injection Hok as <-. simpl.
  apply (collect_order _ _ _ Hhints [] fs); [|exact Hc].
  intros k _ [].
Qed.

End DtoDeclarationOrder.

(** X1 on the sample model: [id] has a callable default, and is required in
    the read schema. *)
Lemma read_schema_fields_required_witness :
  exists schema ty fi,
    Dto.factory nat "WidgetRead" Samples.Widget Dto.read = Ok schema /\
    sget "id" (Dto.fields nat schema) = Some (ty, fi) /\
    fi = {| Dto.fi_default := Dto.Ellipsis; Dto.fi_default_factory := None |}.
Proof.
  do 3 eexists. split; [reflexivity|]. split; [reflexivity|].
  exact (read_schema_fields_required nat "WidgetRead" Samples.Widget _
           "id" _ _ eq_refl eq_refl).
Defined.

(** X2 on a sample model: the scalar default of [active]. *)
Lemma write_schema_field_by_default_witness :
  exists schema ty fi,
    Dto.factory nat "FlaggedWrite" MoreSamples.Flagged Dto.write = Ok schema /\
    sget "active" (Dto.fields nat schema) = Some (ty, fi) /\
    fi = {| Dto.fi_default := Dto.DefaultValue (VInt 1);
            Dto.fi_default_factory := None |}.
Proof.
  do 3 eexists. split; [reflexivity|]. split; [reflexivity|].
  exact (write_schema_field_by_default nat "FlaggedWrite" MoreSamples.Flagged _
           "active" _ _
           {| Dto.info := [];
              Dto.default := Some (Dto.ScalarElementColumnDefault (VInt 1)) |}
           eq_refl eq_refl eq_refl).
Defined.

(** X3 on the sample model: [name], a field of the write schema of
    [Widget], is a field of its read schema. *)
Lemma write_fields_subset_read_witness :
  exists schema_w schema_r,
    Dto.factory nat "WidgetWrite" Samples.Widget Dto.write = Ok schema_w /\
    Dto.factory nat "WidgetRead" Samples.Widget Dto.read = Ok schema_r /\
    In "name" (PyDict.keys (Dto.fields nat schema_w)) /\
    In "name" (PyDict.keys (Dto.fields nat schema_r)).
Proof.
  do 2 eexists. split; [reflexivity|]. split; [reflexivity|].
  assert (Hin : In "name"
                  (PyDict.keys
                     (Dto.fields nat
                        {| Dto.model_name := "WidgetWrite"; Dto.orm_mode := true;
                           Dto.fields :=
                             [("name", ("str",
                                        {| Dto.fi_default := Dto.Ellipsis;
                                           Dto.fi_default_factory := None |}))] |})))
    by (simpl; auto).
  split; [exact Hin|].
  exact (write_fields_subset_read nat "WidgetWrite" "WidgetRead" Samples.Widget
           _ _ eq_refl eq_refl "name" Hin).
Defined.

(** X4 on a sample model: the failure of the write projection of
    [Stamped] is one: it has an included attribute with such a default. *)
Lemma factory_value_error_cause_witness :
  Dto.factory nat "StampedWrite" Samples.Stamped Dto.write
  = Raise (ValueError "Unexpected default type") /\
  exists key type_ column d,
    In (key, Dto.Mapped type_) (Dto.type_hints nat Samples.Stamped) /\
    sget key (Dto.columns nat Samples.Stamped) = Some column /\
    Dto._should_exclude_field nat Dto.write column = false /\
    Dto.default nat column = Some d /\
    Dto.is_scalar nat d = false /\ Dto.is_callable nat d = false.
Proof.
  split; [reflexivity|].
  exact (proj2 (proj2 (factory_value_error_cause nat "StampedWrite"
                         Samples.Stamped Dto.write "Unexpected default type"
                         eq_refl))).
Defined.


(** X6 on the sample model: the write schema of [Widget] has the one field
    [name], and its read schema has [id] before [name]. *)
Lemma factory_fields_in_declaration_order_witness :
  exists schema_w schema_r,
    Dto.factory nat "WidgetWrite" Samples.Widget Dto.write = Ok schema_w /\
    Dto.factory nat "WidgetRead" Samples.Widget Dto.read = Ok schema_r /\
    PyDict.keys (Dto.fields nat schema_w) = ["name"] /\
    PyDict.keys (Dto.fields nat schema_r) = ["id"; "name"].
Proof.
  assert (Hnd : NoDup (PyDict.keys (Dto.type_hints nat Samples.Widget)))
    by (simpl; distinct_keys).
  do 2 eexists. split; [reflexivity|]. split; [reflexivity|]. split.
  - exact (eq_trans
             (factory_fields_in_declaration_order nat "WidgetWrite"
                Samples.Widget Dto.write _ Hnd eq_refl) eq_refl).
  - exact (eq_trans
             (factory_fields_in_declaration_order nat "WidgetRead"
                Samples.Widget Dto.read _ Hnd eq_refl) eq_refl).
Defined.

(** ** The service: the other operations *)
Section ServiceFurther.
Context {S T F : Type}.
Variable repository : AbstractRepository.t S T F.

(** X7.  When the identity carried by [data] differs from [id_],
    [Service.upsert] raises [UnauthorizedException] and leaves the state of
    the repository as it was; a repository that records the operations asked
    of it records none. *)
Theorem service_upsert_unauthorized
  (id_ : value) (data : T) (s : S)
  (Hneq : AbstractRepository.get_id_attribute_value repository data s <> id_) :
  Service.upsert repository id_ data s
  = (Raise (UnauthorizedException "Identifier in data must match `id_`"), s) /\
  (forall log : list string,
      Service.upsert (Spy.repository repository) id_ data (log, s)
      = (Raise (UnauthorizedException "Identifier in data must match `id_`"),
         (log, s))).
Proof.
  assert (Hb : value_eqb
                 (AbstractRepository.get_id_attribute_value repository data s) id_
               = false).
  { destruct (value_eqb _ id_) eqn:E; [|reflexivity].
    apply value_eqb_spec in E. contradiction. }
  split; [|intros log];
    unfold Service.upsert, Service.authorize_upsert, Service.authorize_item_id, bind;
    simpl; rewrite Hb;
    now destruct (AbstractRepository.accessor_is_coroutine repository).
Qed.

(** X8.  [create], [get], [delete] and [list] of the service hand their
    arguments to the one matching operation of the repository, once, and
    return its result or exception and its state: a recording repository
    shows exactly one call, of [add], [get], [delete] and [list]. *)
Theorem service_forwards (log : list string) (s : S) :
  (forall data,
      Service.create (Spy.repository repository) data (log, s)
      = (fst (AbstractRepository.add repository data s),
         ((log ++ ["add"])%list, snd (AbstractRepository.add repository data s)))) /\
  (forall id_,
      Service.get (Spy.repository repository) id_ (log, s)
      = (fst (AbstractRepository.get repository id_ s),
         ((log ++ ["get"])%list, snd (AbstractRepository.get repository id_ s)))) /\
  (forall id_,
      Service.delete (Spy.repository repository) id_ (log, s)
      = (fst (AbstractRepository.delete repository id_ s),
         ((log ++ ["delete"])%list,
          snd (AbstractRepository.delete repository id_ s)))) /\
  (forall filters kw,
      Service.list (Spy.repository repository) filters kw (log, s)
      = (fst (AbstractRepository.list repository filters kw s),
         ((log ++ ["list"])%list,
          snd (AbstractRepository.list repository filters kw s)))).
Proof.
  repeat split; intros;
    unfold Service.create, Service.get, Service.delete, Service.list,
      Service.authorize_create, Service.authorize_get, Service.authorize_delete,
      Service.authorize_list, bind, ret, Spy.repository, Spy.recording; simpl.
  - now destruct (AbstractRepository.add repository data s).
  - now destruct (AbstractRepository.get repository id_ s).
  - now destruct (AbstractRepository.delete repository id_ s).
  - now destruct (AbstractRepository.list repository filters kw s).
Qed.

(** X9.  What [update] and [upsert] of the service do when the identity
    carried by [data] equals [id_] depends on the accessor of the repository.
    With a plain method they are [update] and [upsert] of the repository on
    the same [data]: the same result or exception and the same state, after
    exactly one call of the repository.  With a coroutine function, which is
    what the in-memory repository awaits, the service compares the coroutine
    object, and refuses every call with [UnauthorizedException], the state
    left as it was. *)
Theorem service_authorized_forwards
  (id_ : value) (data : T) (s : S) :
  (AbstractRepository.accessor_is_coroutine repository = false ->
   AbstractRepository.get_id_attribute_value repository data s = id_ ->
   Service.update repository id_ data s
   = AbstractRepository.update repository data s /\
   Service.upsert repository id_ data s
   = AbstractRepository.upsert repository data s /\
   (forall log : list string,
       snd (Service.update (Spy.repository repository) id_ data (log, s))
       = ((log ++ ["update"])%list,
          snd (AbstractRepository.update repository data s)) /\
       snd (Service.upsert (Spy.repository repository) id_ data (log, s))
       = ((log ++ ["upsert"])%list,
          snd (AbstractRepository.upsert repository data s)))) /\
  (AbstractRepository.accessor_is_coroutine repository = true ->
   Service.update repository id_ data s
   = (Raise (UnauthorizedException "Identifier in data must match `id_`"), s) /\
   Service.upsert repository id_ data s
   = (Raise (UnauthorizedException "Identifier in data must match `id_`"), s)).
Proof.
  split.
  - intros Hplain Heq.
    assert (Hb : value_eqb
                   (AbstractRepository.get_id_attribute_value repository data s)
                   id_ = true) by now apply value_eqb_spec.
    repeat split; try intros log;
      unfold Service.update, Service.upsert, Service.authorize_update,
        Service.authorize_upsert, Service.authorize_item_id, bind, ret,
        Spy.repository, Spy.recording; simpl; rewrite Hplain, Hb; simpl.
    + now destruct (AbstractRepository.update repository data s) as [[] ?].
    + now destruct (AbstractRepository.upsert repository data s) as [[] ?].
    + now destruct (AbstractRepository.update repository data s) as [[] ?].
    + now destruct (AbstractRepository.upsert repository data s) as [[] ?].
  - intros Hcoroutine.
    split;
      unfold Service.update, Service.upsert, Service.authorize_update,
        Service.authorize_upsert, Service.authorize_item_id, bind;
      now rewrite Hcoroutine.
Qed.

End ServiceFurther.

(** X7 on the sample store: upserting ["A"] with an entity that says ["B"]. *)
Lemma service_upsert_unauthorized_witness :
  Service.upsert
    (GenericMockRepository.as_repository Samples.ticking_clock Samples.repo unit)
    (VStr "A") 1%nat Samples.stocked
  = (Raise (UnauthorizedException "Identifier in data must match `id_`"),
     Samples.stocked).
Proof.
  apply (service_upsert_unauthorized
           (GenericMockRepository.as_repository
              Samples.ticking_clock Samples.repo unit)
           (VStr "A") 1%nat Samples.stocked).
  vm_compute. discriminate.
Defined.

(** X9 on two samples.  The register has a plain accessor: updating
    ["A"] with ["A"] goes through.  The in-memory repository has a coroutine
    accessor: updating ["A"] with the caller's copy of it is refused. *)
Lemma service_authorized_forwards_witness :
  Service.update MoreSamples.register (VStr "A") (VStr "A") [VStr "A"]
  = (Ok (VStr "A"), [VStr "A"]) /\
  Service.update
    (GenericMockRepository.as_repository Samples.ticking_clock Samples.repo unit)
    (VStr "A") 3%nat Samples.stocked
  = (Raise (UnauthorizedException "Identifier in data must match `id_`"),
     Samples.stocked).
Proof.
  split.
  - exact (eq_trans
             (proj1 (proj1 (service_authorized_forwards MoreSamples.register
                              (VStr "A") (VStr "A") [VStr "A"])
                       eq_refl eq_refl))
             eq_refl).
  - exact (proj1 (proj2 (service_authorized_forwards
                           (GenericMockRepository.as_repository
                              Samples.ticking_clock Samples.repo unit)
                           (VStr "A") 3%nat Samples.stocked)
                    eq_refl)).
Defined.

(** ** Dictionaries: absent and present keys *)
Module PyDictMore.
Section Facts.
Context {K V : Type} (eqb : K -> K -> bool).
Hypothesis eqb_spec : forall a b, eqb a b = true <-> a = b.

Lemma set_absent (k : K) (v : V) (d : list (K * V)) :
  PyDict.get eqb k d = None -> PyDict.set eqb k v d = (d ++ [(k, v)])%list.
Proof.
  induction d as [|[k0 v0] d IH]; simpl; [reflexivity|].
  destruct (eqb k k0); [discriminate|]. intros H. now rewrite IH.
Qed.

Lemma del_absent (k : K) (d : list (K * V)) :
  PyDict.get eqb k d = None -> PyDict.del eqb k d = d.
Proof.
  induction d as [|[k0 v0] d IH]; simpl; [reflexivity|].
  destruct (eqb k k0); [discriminate|]. simpl. intros H. now rewrite IH.
Qed.

Lemma del_set_absent (k : K) (v : V) (d : list (K * V)) :
  PyDict.get eqb k d = None -> PyDict.del eqb k (PyDict.set eqb k v d) = d.
Proof.
  intros Hnone. rewrite (set_absent _ _ _ Hnone).
  unfold PyDict.del. rewrite filter_app. simpl.
  rewrite (PyDictFacts.eqb_refl eqb eqb_spec). simpl. rewrite app_nil_r.
  exact (del_absent _ _ Hnone).
Qed.

Lemma keys_set_present (k : K) (v v0 : V) (d : list (K * V)) :
  PyDict.get eqb k d = Some v0 ->
  PyDict.keys (PyDict.set eqb k v d) = PyDict.keys d.
Proof.
  induction d as [|[k1 v1] d IH]; simpl; [discriminate|].
  destruct (eqb k k1); simpl; [reflexivity|]. intros H. now rewrite IH.
Qed.

End Facts.
End PyDictMore.

(** ** The in-memory repository: runs of [add] and [update] *)
Section MockMoreRuns.
Variable datetime_now : nat -> Z.
Variable self : GenericMockRepository.t.

(** What [add] does to an entity without identity. *)
Lemma add_runs (data : ref) (w : world) :
  GenericMockRepository.get_id_attribute_value self data w = VNone ->
  exists w1,
    GenericMockRepository.add datetime_now self data w = (Ok data, w1) /\
    collection w1
    = PyDict.set value_eqb (GenericMockRepository._id_factory self (id_calls w))
        data (collection w) /\
    heap w1 data
    = sset (GenericMockRepository.id_attribute self)
        (GenericMockRepository._id_factory self (id_calls w))
        (sset "created" (VDatetime (datetime_now (clock_reads w)))
           (sset "updated" (VDatetime (datetime_now (clock_reads w)))
              (heap w data))) /\
    (forall r, r <> data -> heap w1 r = heap w r) /\
    clock_reads w1 = Datatypes.S (clock_reads w) /\
    id_calls w1 = Datatypes.S (id_calls w).
Proof.
  intros Hid.
  unfold GenericMockRepository.add, bind at 1, gets at 1.
  rewrite Hid. cbn [is_None].
  unfold bind, GenericMockRepository.now, setattr, modify,
    GenericMockRepository.call_id_factory,
    GenericMockRepository._set_id_attribute_value, ret, set_heap, set_collection.
  cbn [heap collection clock_reads id_calls].
  eexists. split; [reflexivity|].
  unfold set_heap, set_collection. cbn [heap collection clock_reads id_calls].
  rewrite !MockFacts.store_obj_same.
  repeat split.
  intros r Hr. now rewrite !MockFacts.store_obj_other by assumption.
Qed.

(** A successful run of [update], without any assumption on the instance
    dictionary of the argument: what it leaves alone. *)
Lemma update_runs_footprint (data item : ref) (w : world) (c : value) :
  PyDict.get value_eqb
    (GenericMockRepository.get_id_attribute_value self data w) (collection w)
  = Some item ->
  attr w data "created" = Some c ->
  exists w',
    GenericMockRepository.update datetime_now self data w = (Ok item, w') /\
    collection w' = collection w /\
    clock_reads w' = Datatypes.S (clock_reads w) /\
    id_calls w' = id_calls w /\
    (forall r, r <> item -> r <> data -> heap w' r = heap w r).
Proof.
  intros Hstored Hcreated.
  unfold GenericMockRepository.update, bind at 1, gets at 1.
  unfold bind at 1, GenericMockRepository._find_or_raise_not_found, bind at 1,
    gets at 1.
  rewrite Hstored. cbn [AbstractRepository.check_not_found ret].
  unfold bind at 1, delattr. rewrite Hcreated.
  unfold bind at 1, GenericMockRepository.now.
  unfold bind at 1, setattr at 1, modify.
  unfold bind at 1, gets at 1.
  unfold set_heap. cbn [heap collection clock_reads id_calls].
  unfold bind at 1.
  match goal with
  | |- context [for_each ?items ?body ?w3] =>
      destruct (MockFacts.for_each_assign item items w3)
        as [w' [Hrun [_ [Hother [Hcoll [Hclock Hids]]]]]]
  end.
  rewrite Hrun. unfold ret.
  cbn [heap collection clock_reads id_calls] in *.
  exists w'. split; [reflexivity|].
  repeat split; try assumption.
  intros r Hr Hr'. rewrite (Hother r Hr).
  now rewrite !MockFacts.store_obj_other by assumption.
Qed.

End MockMoreRuns.

(** ** The in-memory repository: lookups, deletion and repeated calls *)

(** X10.  For an identity the store does not know, [get] and [delete] raise
    the not-found error, and so do [update] and [upsert] of an entity that
    carries it; the state is left as it was. *)
Theorem absent_identity_not_found
  (datetime_now : nat -> Z) (self : GenericMockRepository.t)
  (id_ : value) (w : world)
  (Habsent : PyDict.get value_eqb id_ (collection w) = None) :
  GenericMockRepository.get id_ w = (Raise RepositoryNotFoundException, w) /\
  GenericMockRepository.delete id_ w = (Raise RepositoryNotFoundException, w) /\
  (forall data,
      GenericMockRepository.get_id_attribute_value self data w = id_ ->
      GenericMockRepository.update datetime_now self data w
      = (Raise RepositoryNotFoundException, w)) /\
  (forall data,
      GenericMockRepository.get_id_attribute_value self data w = id_ ->
      id_ <> VNone ->
      GenericMockRepository.upsert datetime_now self data w
      = (Raise RepositoryNotFoundException, w)).
Proof.
  assert (Hupdate : forall data,
             GenericMockRepository.get_id_attribute_value self data w = id_ ->
             GenericMockRepository.update datetime_now self data w
             = (Raise RepositoryNotFoundException, w)).
  { intros data Hid. apply update_not_found. now rewrite Hid. }
  split; [|split; [|split]].
  - unfold GenericMockRepository.get,
      GenericMockRepository._find_or_raise_not_found, bind, gets.
    now rewrite Habsent.
  - unfold GenericMockRepository.delete,
      GenericMockRepository._find_or_raise_not_found, bind, gets.
    now rewrite Habsent.
  - exact Hupdate.
  - intros data Hid Hsome.
    unfold GenericMockRepository.upsert, bind, gets. rewrite Hid.
    destruct id_; cbn [is_None]; try (apply Hupdate; exact Hid).
    exfalso. now apply Hsome.
Qed.

(** X10 on the sample store, which does not know ["B"]. *)
Lemma absent_identity_not_found_witness :
  GenericMockRepository.get (VStr "B") Samples.stocked
  = (Raise RepositoryNotFoundException, Samples.stocked) /\
  GenericMockRepository.delete (VStr "B") Samples.stocked
  = (Raise RepositoryNotFoundException, Samples.stocked) /\
  GenericMockRepository.update Samples.ticking_clock Samples.repo 1%nat
    Samples.stocked
  = (Raise RepositoryNotFoundException, Samples.stocked).
Proof.
  destruct (absent_identity_not_found Samples.ticking_clock Samples.repo
              (VStr "B") Samples.stocked eq_refl)
    as [Hget [Hdel [Hupd _]]].
  split; [exact Hget|]. split; [exact Hdel|].
  exact (Hupd 1%nat eq_refl).
Defined.

(** X11.  [delete] of a stored identity returns the stored object and
    removes the entry: the objects themselves are untouched, every other
    identity keeps its object, and from then on [get] and [delete] of that
    identity raise the not-found error. *)
Theorem delete_stored
  (id_ : value) (item : ref) (w : world)
  (Hstored : PyDict.get value_eqb id_ (collection w) = Some item) :
  exists w',
    GenericMockRepository.delete id_ w = (Ok item, w') /\
    heap w' = heap w /\
    GenericMockRepository.get id_ w' = (Raise RepositoryNotFoundException, w') /\
    GenericMockRepository.delete id_ w' = (Raise RepositoryNotFoundException, w') /\
    (forall i, i <> id_ ->
               PyDict.get value_eqb i (collection w')
               = PyDict.get value_eqb i (collection w)).
Proof.
  unfold GenericMockRepository.delete, GenericMockRepository.get,
    GenericMockRepository._find_or_raise_not_found, bind, gets, modify.
  rewrite Hstored. cbn [AbstractRepository.check_not_found ret].
  eexists. split; [reflexivity|].
  unfold set_collection. cbn [heap collection].
  rewrite PyDictFacts.get_del_same.
  repeat split.
  intros i Hi. now apply (PyDictFacts.get_del_other _ value_eqb_spec).
Qed.

(** X11 on the sample store: deleting ["A"]. *)
Lemma delete_stored_witness :
  exists w',
    GenericMockRepository.delete (VStr "A") Samples.stocked = (Ok 0%nat, w') /\
    GenericMockRepository.get (VStr "A") w' = (Raise RepositoryNotFoundException, w').
Proof.
  destruct (delete_stored (VStr "A") 0%nat Samples.stocked eq_refl)
    as [w' [Hdel [_ [Hget _]]]].
  exists w'. split; assumption.
Defined.

(** X12.  When the identity that the factory produces is not yet in use,
    [add] puts the entity at the end of what [list] returns, after the
    entities that were there, in their order. *)
Theorem add_appends_to_listing
  (datetime_now : nat -> Z) (self : GenericMockRepository.t)
  (F : Type) (filters : list F) (kw : kwargs) (data : ref) (w : world)
  (Hid : GenericMockRepository.get_id_attribute_value self data w = VNone)
  (Hfresh : PyDict.get value_eqb
              (GenericMockRepository._id_factory self (id_calls w))
              (collection w) = None) :
  exists w1,
    GenericMockRepository.add datetime_now self data w = (Ok data, w1) /\
    GenericMockRepository.list filters kw w1
    = (Ok (PyDict.values (collection w) ++ [data])%list, w1).
Proof.
  destruct (add_runs datetime_now self data w Hid) as [w1 [Hrun [Hcoll _]]].
  exists w1. split; [exact Hrun|].
  unfold GenericMockRepository.list, gets. rewrite Hcoll.
  rewrite (PyDictMore.set_absent _ _ _ _ Hfresh).
  unfold PyDict.values. now rewrite map_app.
Qed.

(** X12 on the sample store: after adding object 2 the listing is the
    stored object 0, then object 2. *)
Lemma add_appends_to_listing_witness :
  exists w1,
    GenericMockRepository.add Samples.ticking_clock Samples.repo 2%nat
      Samples.stocked = (Ok 2%nat, w1) /\
    GenericMockRepository.list (F := unit) [] [] w1 = (Ok [0%nat; 2%nat], w1).
Proof.
  exact (add_appends_to_listing Samples.ticking_clock Samples.repo unit [] []
           2%nat Samples.stocked eq_refl eq_refl).
Defined.

(** X13.  When the identity that the factory produces is not yet in use,
    [delete] of that identity after [add] returns the added entity and
    leaves the store with the entries it had before the [add]. *)
Theorem add_delete_roundtrip
  (datetime_now : nat -> Z) (self : GenericMockRepository.t)
  (data : ref) (w : world)
  (Hid : GenericMockRepository.get_id_attribute_value self data w = VNone)
  (Hfresh : PyDict.get value_eqb
              (GenericMockRepository._id_factory self (id_calls w))
              (collection w) = None) :
  exists w1 w2,
    GenericMockRepository.add datetime_now self data w = (Ok data, w1) /\
    GenericMockRepository.delete
      (GenericMockRepository._id_factory self (id_calls w)) w1
    = (Ok data, w2) /\
    collection w2 = collection w.
Proof.
  destruct (add_runs datetime_now self data w Hid) as [w1 [Hrun [Hcoll _]]].
  exists w1. eexists. split; [exact Hrun|].
  unfold GenericMockRepository.delete,
    GenericMockRepository._find_or_raise_not_found, bind, gets, modify.
  rewrite Hcoll, (PyDictFacts.get_set_same _ value_eqb_spec).
  cbn [AbstractRepository.check_not_found ret].
  split; [reflexivity|].
  unfold set_collection. cbn [collection]. rewrite Hcoll.
  exact (PyDictMore.del_set_absent _ value_eqb_spec _ _ _ Hfresh).
Qed.

(** X13 on the sample store: adding object 2, then deleting it. *)
Lemma add_delete_roundtrip_witness :
  exists w1 w2,
    GenericMockRepository.add Samples.ticking_clock Samples.repo 2%nat
      Samples.stocked = (Ok 2%nat, w1) /\
    GenericMockRepository.delete (VUUID 0) w1 = (Ok 2%nat, w2) /\
    collection w2 = [(VStr "A", 0%nat)].
Proof.
  exact (add_delete_roundtrip Samples.ticking_clock Samples.repo 2%nat
           Samples.stocked eq_refl eq_refl).
Defined.

(** X14.  [add] does not compare the identity that the factory produces
    with the store.  When that identity is in use, the new entity takes the
    place of the stored one: the identities of the store are the same as
    before, [get] of that identity returns the new entity, and the object
    that was stored is itself untouched. *)
Theorem add_colliding_identity_overwrites
  (datetime_now : nat -> Z) (self : GenericMockRepository.t)
  (data old : ref) (w : world)
  (Hid : GenericMockRepository.get_id_attribute_value self data w = VNone)
  (Hused : PyDict.get value_eqb
             (GenericMockRepository._id_factory self (id_calls w))
             (collection w) = Some old) :
  exists w1,
    GenericMockRepository.add datetime_now self data w = (Ok data, w1) /\
    PyDict.keys (collection w1) = PyDict.keys (collection w) /\
    GenericMockRepository.get
      (GenericMockRepository._id_factory self (id_calls w)) w1
    = (Ok data, w1) /\
    (old <> data -> heap w1 old = heap w old).
Proof.
  destruct (add_runs datetime_now self data w Hid)
    as [w1 [Hrun [Hcoll [_ [Hother _]]]]].
  exists w1. split; [exact Hrun|]. split; [|split].
  - rewrite Hcoll. exact (PyDictMore.keys_set_present _ _ _ _ _ Hused).
  - unfold GenericMockRepository.get,
      GenericMockRepository._find_or_raise_not_found, bind, gets.
    now rewrite Hcoll, (PyDictFacts.get_set_same _ value_eqb_spec).
  - intros Hne. now apply Hother.
Qed.

(** X14 on the sample store, with a factory that answers ["A"] again: the
    new object 2 replaces the stored object 0. *)
Lemma add_colliding_identity_overwrites_witness :
  exists w1,
    GenericMockRepository.add Samples.ticking_clock MoreSamples.stubborn_repo
      2%nat Samples.stocked = (Ok 2%nat, w1) /\
    PyDict.keys (collection w1) = [VStr "A"] /\
    GenericMockRepository.get (VStr "A") w1 = (Ok 2%nat, w1).
Proof.
  destruct (add_colliding_identity_overwrites Samples.ticking_clock
              MoreSamples.stubborn_repo 2%nat 0%nat Samples.stocked
              eq_refl eq_refl)
    as [w1 [Hrun [Hkeys [Hget _]]]].
  exists w1. repeat split; assumption.
Defined.

(** X15.  An entity can be added once.  After a successful [add] that gave
    it an identity other than [None], a second [add] of the same entity
    fails on the assertion and changes nothing. *)
Theorem add_twice
  (datetime_now : nat -> Z) (self : GenericMockRepository.t)
  (data : ref) (w : world)
  (Hid : GenericMockRepository.get_id_attribute_value self data w = VNone)
  (Hsome : GenericMockRepository._id_factory self (id_calls w) <> VNone) :
  exists w1,
    GenericMockRepository.add datetime_now self data w = (Ok data, w1) /\
    GenericMockRepository.add datetime_now self data w1
    = (Raise (AssertionError "received identified instance"), w1).
Proof.
  destruct (add_runs datetime_now self data w Hid)
    as [w1 [Hrun [_ [Hdata _]]]].
  exists w1. split; [exact Hrun|].
  assert (Hid1 : GenericMockRepository.get_id_attribute_value self data w1
                 = GenericMockRepository._id_factory self (id_calls w)).
  { unfold GenericMockRepository.get_id_attribute_value, attr.
    now rewrite Hdata, (PyDictFacts.get_set_same _ string_eqb_spec). }
  unfold GenericMockRepository.add, bind at 1, gets at 1. rewrite Hid1.
  destruct (GenericMockRepository._id_factory self (id_calls w));
    try reflexivity.
  exfalso. now apply Hsome.
Qed.

(** X15 on the sample store: adding object 2 twice. *)
Lemma add_twice_witness :
  exists w1,
    GenericMockRepository.add Samples.ticking_clock Samples.repo 2%nat
      Samples.stocked = (Ok 2%nat, w1) /\
    GenericMockRepository.add Samples.ticking_clock Samples.repo 2%nat w1
    = (Raise (AssertionError "received identified instance"), w1).
Proof.
  apply (add_twice Samples.ticking_clock Samples.repo 2%nat Samples.stocked).
  - reflexivity.
  - simpl. discriminate.
Defined.

(** X16.  An entity object can be passed to [update] once.  The first,
    successful call removes [created] from it, so a second [update] with the
    same object finds the stored entity and then fails with [AttributeError],
    changing nothing.  (The identity attribute is not one of the two
    timestamps.) *)
Theorem update_twice
  (datetime_now : nat -> Z) (self : GenericMockRepository.t)
  (data item : ref) (w : world) (c : value)
  (Hstored : PyDict.get value_eqb
               (GenericMockRepository.get_id_attribute_value self data w)
               (collection w) = Some item)
  (Hcreated : attr w data "created" = Some c)
  (Hdict : NoDup (PyDict.keys (heap w data)))
  (Hidc : GenericMockRepository.id_attribute self <> "created")
  (Hidu : GenericMockRepository.id_attribute self <> "updated") :
  exists w1,
    GenericMockRepository.update datetime_now self data w = (Ok item, w1) /\
    GenericMockRepository.update datetime_now self data w1
    = (Raise (AttributeError "created"), w1).
Proof.
  destruct (update_runs datetime_now self data item w c Hstored Hcreated Hdict)
    as [w1 [Hrun [Hcoll [_ [_ [Hdata _]]]]]].
  exists w1. split; [exact Hrun|].
  assert (Hid1 : GenericMockRepository.get_id_attribute_value self data w1
                 = GenericMockRepository.get_id_attribute_value self data w).
  { unfold GenericMockRepository.get_id_attribute_value, attr. rewrite Hdata.
    rewrite (PyDictFacts.get_set_other _ string_eqb_spec) by assumption.
    now rewrite (PyDictFacts.get_del_other _ string_eqb_spec) by assumption. }
  apply (update_without_created datetime_now self data item).
  - now rewrite Hid1, Hcoll.
  - unfold attr. rewrite Hdata.
    rewrite (PyDictFacts.get_set_other _ string_eqb_spec) by discriminate.
    apply PyDictFacts.get_del_same.
Qed.

(** X16 on the sample store: updating twice with the caller's copy. *)
Lemma update_twice_witness :
  exists w1,
    GenericMockRepository.update Samples.ticking_clock Samples.repo 3%nat
      Samples.stocked = (Ok 0%nat, w1) /\
    GenericMockRepository.update Samples.ticking_clock Samples.repo 3%nat w1
    = (Raise (AttributeError "created"), w1).
Proof.
  apply (update_twice Samples.ticking_clock Samples.repo 3%nat 0%nat
           Samples.stocked (VDatetime 7)).
  - reflexivity.
  - reflexivity.
  - simpl. distinct_keys.
  - simpl. discriminate.
  - simpl. discriminate.
Defined.

(** [update] never changes which object the store holds under which
    identity, and never consults the identity factory. *)
Lemma update_keeps_collection
  (datetime_now : nat -> Z) (self : GenericMockRepository.t)
  (data : ref) (w : world) :
  collection (snd (GenericMockRepository.update datetime_now self data w))
  = collection w /\
  id_calls (snd (GenericMockRepository.update datetime_now self data w))
  = id_calls w.
Proof.
  destruct (PyDict.get value_eqb
              (GenericMockRepository.get_id_attribute_value self data w)
              (collection w)) as [item|] eqn:Hstored.
  2:{ rewrite (update_not_found datetime_now self data w Hstored). auto. }
  destruct (attr w data "created") as [c|] eqn:Hc.
  2:{ rewrite (update_without_created datetime_now self data item w Hstored Hc).
      auto. }
  destruct (update_runs_footprint datetime_now self data item w c Hstored Hc)
    as [w' [Hrun [Hcoll [_ [Hids _]]]]].
  rewrite Hrun. auto.
Qed.

(** X17.  Whatever its outcome, [update] leaves the entries of the store
    and the identity factory alone, reads the clock at most once, and changes
    no object other than its argument and the object stored under the
    identity of the argument. *)
Theorem update_footprint
  (datetime_now : nat -> Z) (self : GenericMockRepository.t)
  (data : ref) (w : world) :
  collection (snd (GenericMockRepository.update datetime_now self data w))
  = collection w /\
  id_calls (snd (GenericMockRepository.update datetime_now self data w))
  = id_calls w /\
  (clock_reads (snd (GenericMockRepository.update datetime_now self data w))
   <= Datatypes.S (clock_reads w))%nat /\
  (forall r,
      r <> data ->
      PyDict.get value_eqb
        (GenericMockRepository.get_id_attribute_value self data w) (collection w)
      <> Some r ->
      heap (snd (GenericMockRepository.update datetime_now self data w)) r
      = heap w r).
Proof.
  destruct (PyDict.get value_eqb
              (GenericMockRepository.get_id_attribute_value self data w)
              (collection w)) as [item|] eqn:Hstored.
  2:{ rewrite (update_not_found datetime_now self data w Hstored).
      cbn [snd]. repeat split; auto. }
  destruct (attr w data "created") as [c|] eqn:Hc.
  2:{ rewrite (update_without_created datetime_now self data item w Hstored Hc).
      cbn [snd]. repeat split; auto. }
  destruct (update_runs_footprint datetime_now self data item w c Hstored Hc)
    as [w' [Hrun [Hcoll [Hclock [Hids Hother]]]]].
  rewrite Hrun. cbn [snd]. split; [exact Hcoll|]. split; [exact Hids|]. split.
  - rewrite Hclock. apply le_n.
  - intros r Hr Hitem. apply Hother; [congruence|assumption].
Qed.

(** X18.  [update] changes no attribute of its argument other than
    [created] and [updated], whatever its outcome, also when the argument is
    the stored object itself. *)
Theorem update_argument_frame
  (datetime_now : nat -> Z) (self : GenericMockRepository.t)
  (data : ref) (w : world) (k : string)
  (Hdict : NoDup (PyDict.keys (heap w data)))
  (Hkc : k <> "created") (Hku : k <> "updated") :
  attr (snd (GenericMockRepository.update datetime_now self data w)) data k
  = attr w data k.
Proof.
  destruct (PyDict.get value_eqb
              (GenericMockRepository.get_id_attribute_value self data w)
              (collection w)) as [item|] eqn:Hstored.
  2:{ now rewrite (update_not_found datetime_now self data w Hstored). }
  destruct (attr w data "created") as [c|] eqn:Hc.
  2:{ now rewrite (update_without_created datetime_now self data item w Hstored Hc). }
  destruct (update_runs datetime_now self data item w c Hstored Hc Hdict)
    as [w' [Hrun [_ [_ [_ [Hdata _]]]]]].
  rewrite Hrun. cbn [snd]. unfold attr. rewrite Hdata.
  rewrite (PyDictFacts.get_set_other _ string_eqb_spec) by assumption.
  now rewrite (PyDictFacts.get_del_other _ string_eqb_spec) by assumption.
Qed.

(** X18 on the sample store: the stored object 0, passed to [update]
    itself, keeps its name. *)
Lemma update_argument_frame_witness :
  attr (snd (GenericMockRepository.update Samples.ticking_clock Samples.repo
               0%nat Samples.stocked)) 0%nat "name"
  = Some (VStr "a").
Proof.
  refine (eq_trans
            (update_argument_frame Samples.ticking_clock Samples.repo 0%nat
               Samples.stocked "name" _ _ _) eq_refl).
  - simpl. distinct_keys.
  - discriminate.
  - discriminate.
Defined.



(** ** The access log filter *)
Section AccessLogFilterFacts.
Variable path_filter_match : string -> bool.

Lemma unpack_args_skip (a : value) (args : list value) :
  (3 <= List.length args)%nat ->
  AccessLogFilter.unpack_args (a :: args) = AccessLogFilter.unpack_args args.
Proof.
  destruct args as [|b [|c [|d rest]]]; simpl; intros Hlen; try lia; reflexivity.
Qed.

Lemma unpack_args_last_three (prefix : list value) (p x s : value) :
  AccessLogFilter.unpack_args (prefix ++ [p; x; s]) = Some (p, s).
Proof.
  induction prefix as [|a prefix IH]; [reflexivity|].
  rewrite <- app_comm_cons, unpack_args_skip; [exact IH|].
  rewrite length_app. simpl. lia.
Qed.

(** X20.  [filter] looks at the last three arguments of the record only:
    the third from the end is the request path and the last the status code.
    A path that is not a string is a [TypeError]; otherwise the record is
    dropped exactly when the pattern matches the path and the status code is
    200, and kept in every other case. *)
Theorem filter_decision (prefix : list value) (req_path x status_code : value) :
  AccessLogFilter.filter path_filter_match (prefix ++ [req_path; x; status_code])
  = match req_path with
    | VStr path =>
        AccessLogFilter.Returns
          (negb (path_filter_match path
                 && value_eqb status_code AccessLogFilter.HTTP_200_OK))
    | _ => AccessLogFilter.RaisesTypeError
    end.
Proof.
  unfold AccessLogFilter.filter. rewrite unpack_args_last_three.
  destruct req_path; try reflexivity.
  now destruct (path_filter_match s && value_eqb status_code AccessLogFilter.HTTP_200_OK).
Qed.

(** X21.  A record with fewer than three arguments cannot be unpacked:
    [filter] raises [ValueError]. *)
Theorem filter_too_few_args (args : list value)
  (Hlen : (List.length args < 3)%nat) :
  AccessLogFilter.filter path_filter_match args = AccessLogFilter.RaisesValueError.
Proof.
  destruct args as [|a [|b [|c rest]]]; simpl in Hlen; try lia; reflexivity.
Qed.

End AccessLogFilterFacts.

(** X21 on a record with the two arguments of a message about a path and
    a status. *)
Lemma filter_too_few_args_witness :
  AccessLogFilter.filter MoreSamples.health_path [VStr "/health"; VInt 200]
  = AccessLogFilter.RaisesValueError.
Proof.
  apply filter_too_few_args. simpl. lia.
Defined.

(** ** The serialisers of the queue *)

(** X22.  [Queue.__init__] passes the positional arguments on as they are,
    and the keyword arguments with [dump] and [load] always set: to what the
    caller gave, when the caller gave one, and to the [orjson] serialisers
    otherwise.  Every other keyword argument is passed on unchanged. *)
Theorem queue_init_serialisers
  (A : Type) (orjson_dumps_default_str orjson_loads : A)
  (args : list A) (kw : list (string * A)) :
  fst (Queue.__init__ A orjson_dumps_default_str orjson_loads args kw) = args /\
  sget "dump" (snd (Queue.__init__ A orjson_dumps_default_str orjson_loads args kw))
  = Some (match sget "dump" kw with
          | Some dump => dump
          | None => orjson_dumps_default_str
          end) /\
  sget "load" (snd (Queue.__init__ A orjson_dumps_default_str orjson_loads args kw))
  = Some (match sget "load" kw with
          | Some load => load
          | None => orjson_loads
          end) /\
  (forall k, k <> "dump" -> k <> "load" ->
             sget k (snd (Queue.__init__ A orjson_dumps_default_str orjson_loads
                            args kw))
             = sget k kw).
Proof.
  unfold Queue.__init__, Queue.setdefault. cbn [fst snd].
  assert (Hload : forall d : list (string * A),
             sget "load"
               match sget "load" d with
               | Some _ => d
               | None => sset "load" orjson_loads d
               end
             = Some match sget "load" d with
                    | Some load => load
                    | None => orjson_loads
                    end).
  { intros d. destruct (sget "load" d) eqn:E; [exact E|].
    apply (PyDictFacts.get_set_same _ string_eqb_spec). }
  assert (Hother : forall (key : string) (v : A) (d : list (string * A)) k,
             k <> key ->
             sget k match sget key d with
                    | Some _ => d
                    | None => sset key v d
                    end
             = sget k d).
  { intros key v d k Hk. destruct (sget key d); [reflexivity|].
    now apply (PyDictFacts.get_set_other _ string_eqb_spec). }
  split; [reflexivity|]. split; [|split].
  - rewrite Hother by discriminate.
    destruct (sget "dump" kw) eqn:E; [exact E|].
    apply (PyDictFacts.get_set_same _ string_eqb_spec).
  - rewrite Hload. now rewrite Hother by discriminate.
  - intros k Hd Hl. now rewrite !Hother by assumption.
Qed.

(** ** The slug of the application name *)
Module SlugFacts.
Import AppSettings.

Lemma lower_char_idempotent (c : ascii) : lower_char (lower_char c) = lower_char c.
Proof. destruct c as [[] [] [] [] [] [] [] []]; reflexivity. Qed.

Lemma isspace_lower_char (c : ascii) : isspace (lower_char c) = isspace c.
Proof. destruct c as [[] [] [] [] [] [] [] []]; reflexivity. Qed.

Lemma lower_idempotent (s : string) : lower (lower s) = lower s.
Proof.
  induction s as [|c s IH]; simpl; [reflexivity|].
  now rewrite lower_char_idempotent, IH.
Qed.

Lemma lower_append (s t : string) : lower (s ++ t) = lower s ++ lower t.
Proof. induction s as [|c s IH]; simpl; [reflexivity|]. now rewrite IH. Qed.

Lemma append_empty_r (s : string) : s ++ EmptyString = s.
Proof. induction s as [|c s IH]; simpl; [reflexivity|]. now rewrite IH. Qed.

Lemma append_assoc (s t u : string) : (s ++ t) ++ u = s ++ (t ++ u).
Proof. induction s as [|c s IH]; simpl; [reflexivity|]. now rewrite IH. Qed.

Lemma all_chars_append (p : ascii -> bool) (s t : string) :
  all_chars p (s ++ t) = all_chars p s && all_chars p t.
Proof.
  induction s as [|c s IH]; simpl; [reflexivity|].
  now rewrite IH, andb_assoc.
Qed.

Lemma not_space_lower (s : string) :
  all_chars not_space (lower s) = all_chars not_space s.
Proof.
  induction s as [|c s IH]; simpl; [reflexivity|].
  unfold not_space at 1 3. now rewrite isspace_lower_char, IH.
Qed.

(** The words of [split] hold no whitespace and are not empty. *)
Lemma split_from_words (s : string) :
  forall word,
    all_chars not_space word = true ->
    Forall (fun w => all_chars not_space w = true /\ is_empty w = false)
      (split_from word s).
Proof.
  induction s as [|c s IH]; simpl; intros word Hword.
  - destruct (is_empty word) eqn:E; [constructor|].
    constructor; [auto|constructor].
  - destruct (isspace c) eqn:Hc.
    + destruct (is_empty word) eqn:E; [now apply IH|].
      constructor; [auto|now apply IH].
    + apply IH. rewrite all_chars_append, Hword. simpl.
      unfold not_space. now rewrite Hc.
Qed.

(** A string without whitespace is one word, unless it is empty. *)
Lemma split_from_one_word (s : string) :
  forall word,
    all_chars not_space s = true ->
    split_from word s = if is_empty (word ++ s) then [] else [word ++ s].
Proof.
  induction s as [|c s IH]; simpl; intros word Hs.
  - now rewrite append_empty_r.
  - apply andb_prop in Hs. destruct Hs as [Hc Hs].
    unfold not_space in Hc. apply negb_true_iff in Hc. rewrite Hc.
    rewrite (IH _ Hs), append_assoc. reflexivity.
Qed.

Lemma split_from_blank (s : string) :
  all_chars isspace s = true -> split_from EmptyString s = [].
Proof.
  induction s as [|c s IH]; simpl; [reflexivity|].
  intros H. apply andb_prop in H. destruct H as [Hc Hs]. rewrite Hc. now apply IH.
Qed.

Lemma join_not_space (sep : string) (words : list string) :
  all_chars not_space sep = true ->
  Forall (fun w => all_chars not_space w = true) words ->
  all_chars not_space (join sep words) = true.
Proof.
  intros Hsep Hwords. induction Hwords as [|w rest Hw Hrest IH]; [reflexivity|].
  cbn [join]. destruct rest as [|w' rest']; [exact Hw|].
  rewrite !all_chars_append, Hw, Hsep. exact IH.
Qed.

Lemma lower_join (sep : string) (words : list string) :
  lower (join sep words) = join (lower sep) (map lower words).
Proof.
  induction words as [|w rest IH]; [reflexivity|].
  cbn [join map]. destruct rest as [|w' rest']; [reflexivity|].
  rewrite !lower_append, IH. reflexivity.
Qed.

Lemma slug_not_space (NAME : string) :
  all_chars not_space (slug NAME) = true.
Proof.
  unfold slug. apply join_not_space; [reflexivity|].
  apply Forall_map.
  eapply Forall_impl; [|apply (split_from_words NAME EmptyString eq_refl)].
  intros w [Hw _]. now rewrite not_space_lower.
Qed.

Lemma lower_slug (NAME : string) : lower (slug NAME) = slug NAME.
Proof.
  unfold slug. rewrite lower_join, map_map.
  f_equal. apply map_ext. intros w. apply lower_idempotent.
Qed.

End SlugFacts.

(** X23.  The slug of an ASCII name holds no whitespace and no upper-case
    letter: lowering it again changes nothing. *)
Theorem slug_no_whitespace_no_uppercase (NAME : string)
  (Hascii : AppSettings.is_ascii NAME = true) :
  AppSettings.all_chars AppSettings.not_space (AppSettings.slug NAME) = true /\
  AppSettings.lower (AppSettings.slug NAME) = AppSettings.slug NAME.
Proof.
  split; [apply SlugFacts.slug_not_space | apply SlugFacts.lower_slug].
Qed.

(** X23 on a sample name. *)
Lemma slug_no_whitespace_no_uppercase_witness :
  AppSettings.slug "  My  Starlite App " = "my-starlite-app" /\
  AppSettings.lower (AppSettings.slug "  My  Starlite App ")
  = AppSettings.slug "  My  Starlite App ".
Proof.
  split; [reflexivity|].
  exact (proj2 (slug_no_whitespace_no_uppercase "  My  Starlite App " eq_refl)).
Defined.

(** X24.  Taking the slug of an ASCII name twice gives the same as taking
    it once. *)
Theorem slug_idempotent (NAME : string)
  (Hascii : AppSettings.is_ascii NAME = true) :
  AppSettings.slug (AppSettings.slug NAME) = AppSettings.slug NAME.
Proof.
  unfold AppSettings.slug at 1. unfold AppSettings.split.
  rewrite (SlugFacts.split_from_one_word _ EmptyString
             (SlugFacts.slug_not_space NAME)).
  cbn [append].
  destruct (AppSettings.slug NAME) as [|c s] eqn:E; [reflexivity|].
  cbn [AppSettings.is_empty map AppSettings.join].
  rewrite <- E. apply SlugFacts.lower_slug.
Qed.

(** X24 on a sample name. *)
Lemma slug_idempotent_witness :
  AppSettings.slug (AppSettings.slug "  My  Starlite App ") = "my-starlite-app".
Proof.
  exact (eq_trans (slug_idempotent "  My  Starlite App " eq_refl) eq_refl).
Defined.

(** X25.  The slug of a name that is empty or all whitespace is the empty
    string. *)
Theorem slug_blank (NAME : string)
  (Hblank : AppSettings.all_chars AppSettings.isspace NAME = true) :
  AppSettings.slug NAME = EmptyString.
Proof.
  unfold AppSettings.slug, AppSettings.split.
  now rewrite (SlugFacts.split_from_blank NAME Hblank).
Qed.

(** X25 on a name of three spaces. *)
Lemma slug_blank_witness : AppSettings.slug "   " = EmptyString.
Proof.
  exact (slug_blank "   " eq_refl).
Defined.
